(** * AIND-Recognizer: model selectors and recogniser

    A shallow embedding of [my_model_selectors.py] and [my_recognizer.py].

    The numerical libraries the program calls (hmmlearn's [GaussianHMM],
    numpy's [log] and its global random generator) are black boxes: they are
    the fields of the class [Hmmlearn] below, and every definition and
    theorem is parametric in them.  Python floats are IEEE binary64 numbers
    ([spec_float] at precision 53), exceptions are the [Raise] results of an
    error monad that also threads the one piece of global state the
    selectors touch, numpy's global random generator, and a log of the calls
    made to the black box. *)

From Stdlib Require Import ZArith List String Lia Bool.
From Stdlib Require Import Floats.SpecFloat.
Import ListNotations.

Local Open Scope Z_scope.

(** ** IEEE binary64 *)

Definition float : Type := spec_float.

Module F64.

Definition prec : Z := 53.
Definition emax : Z := 1024.

(** [float(z)] for a Python int: round to nearest, ties to even. *)
Definition of_Z (z : Z) : float := binary_normalize prec emax z 0 false.

(** [m * 2^e], for writing literals. *)
Definition dyadic (m e : Z) : float := binary_normalize prec emax m e false.

Definition add : float -> float -> float := SFadd prec emax.
Definition sub : float -> float -> float := SFsub prec emax.
Definition mul : float -> float -> float := SFmul prec emax.
Definition div : float -> float -> float := SFdiv prec emax.

(** [a < b] and [a > b]; both are false as soon as one side is a NaN. *)
Definition ltb (a b : float) : bool := SFltb a b.
Definition gtb (a b : float) : bool := SFltb b a.

(** [float('inf')], [float('-inf')] *)
Definition inf : float := S754_infinity false.
Definition neg_inf : float := S754_infinity true.
Definition nan : float := S754_nan.

End F64.

(** A comparison [better] the sweeps can use: never true of a value against
    itself, and transitive. *)
Definition strict (better : float -> float -> bool) : Prop :=
  (forall a, better a a = false) /\
  (forall a b c, better a b = true -> better b c = true -> better a c = true).

(** ** Exceptions and the interpreter state *)

Inductive exn : Type :=
| ValueError
| KeyError
| IndexError
| ZeroDivisionError
| AttributeError.

Inductive res (A : Type) : Type :=
| Ok (a : A)
| Raise (e : exn).

Arguments Ok {A} a.
Arguments Raise {A} e.

Definition is_ok {A} (r : res A) : bool :=
  match r with Ok _ => true | Raise _ => false end.

Definition and_then {A B} (r : res A) (k : A -> res B) : res B :=
  match r with
  | Ok a => k a
  | Raise e => Raise e
  end.

(** A frame is one feature vector; [features] is the matrix [X], one row per
    frame; [lengths] are the per-sequence row counts. *)
Definition frame := list float.
Definition features := list frame.
Definition seq_lengths := list nat.

(** Python's [len] *)
Definition len {A} (l : list A) : Z := Z.of_nat (List.length l).

(** [l[i]] for a list and a non-negative index *)
Definition list_index {A} (l : list A) (i : nat) : res A :=
  match nth_error l i with
  | Some a => Ok a
  | None => Raise IndexError
  end.

(** [range(a, b)] *)
Definition range (a b : Z) : list Z :=
  map (fun i => a + Z.of_nat i) (seq 0 (Z.to_nat (b - a))).

(** *** Dictionaries

    A Python dict iterates in insertion order, and the order decides the
    tie-break of [max]; it is an association list.  [dict_set] is
    [d[k] = v]: it overwrites in place or appends. *)

Definition dict (V : Type) := list (string * V).

Definition dict_keys {V} (d : dict V) : list string := map fst d.

Fixpoint dict_get {V} (d : dict V) (k : string) : res V :=
  match d with
  | [] => Raise KeyError
  | (k', v) :: d' => if String.eqb k k' then Ok v else dict_get d' k
  end.

Fixpoint dict_set {V} (d : dict V) (k : string) (v : V) : dict V :=
  match d with
  | [] => [(k, v)]
  | (k', v') :: d' =>
      if String.eqb k k' then (k', v) :: d' else (k', v') :: dict_set d' k v
  end.

(** *** The numerical black box

    [hmm_fit g n X lengths] is [GaussianHMM(n_components=n,
    covariance_type="diag", n_iter=1000).fit(X, lengths)] run with the random
    generator in state [g]: the trained model or the exception, and the
    generator afterwards.  [RandomState seed] is the private generator
    [GaussianHMM] makes from an integer [random_state]; with
    [random_state=None] it draws from numpy's global generator.
    [hmm_score m X lengths] is [m.score(X, lengths)], which draws nothing. *)

Class Hmmlearn : Type := {
  Model : Type;
  RNG : Type;
  hmm_fit : RNG -> Z -> features -> seq_lengths -> res Model * RNG;
  RandomState : Z -> RNG;
  hmm_score : Model -> features -> seq_lengths -> res float;
  np_log : Z -> float
}.

Section Interpreter.

Context {H : Hmmlearn}.

(** A call into hmmlearn *)
Inductive call : Type :=
| FitCall (random_state : option Z) (n_components : Z)
          (X : features) (lengths : seq_lengths)
| ScoreCall (m : Model) (X : features) (lengths : seq_lengths).

(** The global state: numpy's global generator and the calls made so far. *)
Record world : Type := {
  rng : RNG;
  calls : list call
}.

Definition py (A : Type) : Type := world -> res A * world.

Definition ret {A} (a : A) : py A := fun w => (Ok a, w).

Definition raise {A} (e : exn) : py A := fun w => (Raise e, w).

Definition lift {A} (r : res A) : py A := fun w => (r, w).

Definition bind {A B} (c : py A) (k : A -> py B) : py B :=
  fun w =>
    match c w with
    | (Ok a, w') => k a w'
    | (Raise e, w') => (Raise e, w')
    end.

(** [try: c  except: h] with a bare [except] *)
Definition try_except {A} (c : py A) (h : py A) : py A :=
  fun w =>
    match c w with
    | (Ok a, w') => (Ok a, w')
    | (Raise _, w') => h w'
    end.

(** [for x in xs: st = body x st] *)
Fixpoint for_each {X S} (xs : list X) (body : X -> S -> py S) (st : S) : py S :=
  match xs with
  | [] => ret st
  | x :: xs' => bind (body x st) (for_each xs' body)
  end.

(** [GaussianHMM(n_components=n, ..., random_state=random_state).fit(X, lengths)] *)
Definition GaussianHMM_fit (random_state : option Z) (n : Z)
    (X : features) (lengths : seq_lengths) : py Model :=
  fun w =>
    let log := calls w ++ [FitCall random_state n X lengths] in
    match random_state with
    | Some seed =>
        (fst (hmm_fit (RandomState seed) n X lengths),
         {| rng := rng w; calls := log |})
    | None =>
        let (r, g) := hmm_fit (rng w) n X lengths in
        (r, {| rng := g; calls := log |})
    end.

(** [model.score(X, lengths)] *)
Definition model_score (m : Model) (X : features) (lengths : seq_lengths)
    : py float :=
  fun w =>
    (hmm_score m X lengths,
     {| rng := rng w; calls := calls w ++ [ScoreCall m X lengths] |}).

End Interpreter.

Declare Scope py_scope.
Delimit Scope py_scope with py.
Notation "x <- c ;; k" := (bind c (fun x => k))
  (at level 100, c at next level, right associativity) : py_scope.
Notation "' p <- c ;; k" := (bind c (fun x => let 'p := x in k))
  (at level 100, p pattern, c at next level, right associativity) : py_scope.

Local Open Scope py_scope.

(** * my_recognizer.py *)

Section Recognizer.

Context {H : Hmmlearn}.

(** Modelled from the spec: the test set ([asl_data.SinglesData], not among
    the sources) is an ordered sequence of (features, lengths) items;
    [num_items] is its length and [get_item_Xlengths i] its [i]-th item. *)
Definition SinglesData : Type := list (features * seq_lengths).

Definition num_items (test_set : SinglesData) : Z := len test_set.

Definition get_item_Xlengths (test_set : SinglesData) (i : Z)
    : res (features * seq_lengths) :=
  match nth_error test_set (Z.to_nat i) with
  | Some item => Ok item
  | None => Raise KeyError
  end.

(** [m.score(X, lengths)] where [m] is what a selector returned: scoring
    [None] is an [AttributeError]. *)
Definition score_of (m : option Model) (X : features) (lengths : seq_lengths)
    : py float :=
  match m with
  | Some model => model_score model X lengths
  | None => raise AttributeError
  end.

(** Lines 29-33, the body of [for word in models]. *)
Definition recognize_word (models : dict (option Model))
    (X : features) (length : seq_lengths)
    (word : string) (logLs : dict float) : py (dict float) :=
  try_except
    (m <- lift (dict_get models word) ;;
     logL <- score_of m X length ;;
     ret (dict_set logLs word logL))
    (ret logLs).

(** Lines 26-34, the body of [for i in range(test_set.num_items)]. *)
Definition recognize_item (models : dict (option Model))
    (test_set : SinglesData) (i : Z) (probabilities : list (dict float))
    : py (list (dict float)) :=
  ' (X, length) <- lift (get_item_Xlengths test_set i) ;;
  logLs <- for_each (dict_keys models) (recognize_word models X length) [] ;;
  ret (probabilities ++ [logLs]).

(** The builtin [max(xs, key=key)]: the first element is the candidate, a
    later one replaces it when its key is strictly greater; an empty
    sequence is a [ValueError]. *)
Fixpoint max_loop (key : string -> res float) (best : string)
    (best_key : float) (xs : list string) : res string :=
  match xs with
  | [] => Ok best
  | x :: xs' =>
      match key x with
      | Ok k =>
          if F64.gtb k best_key then max_loop key x k xs'
          else max_loop key best best_key xs'
      | Raise e => Raise e
      end
  end.

Definition py_max (xs : list string) (key : string -> res float) : res string :=
  match xs with
  | [] => Raise ValueError
  | x :: xs' =>
      match key x with
      | Ok k => max_loop key x k xs'
      | Raise e => Raise e
      end
  end.

(** Line 35, the list comprehension. *)
Fixpoint guess_all (probabilities : list (dict float)) : res (list string) :=
  match probabilities with
  | [] => Ok []
  | p :: ps =>
      match py_max (dict_keys p) (fun x => dict_get p x) with
      | Ok g =>
          match guess_all ps with
          | Ok gs => Ok (g :: gs)
          | Raise e => Raise e
          end
      | Raise e => Raise e
      end
  end.

Definition recognize (models : dict (option Model)) (test_set : SinglesData)
    : py (list (dict float) * list string) :=
  probabilities <-
    for_each (range 0 (num_items test_set)) (recognize_item models test_set) [] ;;
  guesses <- lift (guess_all probabilities) ;;
  ret (probabilities, guesses).

End Recognizer.

(** * my_model_selectors.py *)

(** A Python number that is an [int] or a float: [other_logL_sum] and
    [logL_sum] start as the int [0] and become floats at the first [+=]. *)
Inductive pynum : Type :=
| PyInt (z : Z)
| PyFloat (f : float).

Definition to_float (a : pynum) : float :=
  match a with
  | PyInt z => F64.of_Z z
  | PyFloat f => f
  end.

(** [a + x] for a float [x] *)
Definition num_add (a : pynum) (x : float) : pynum :=
  PyFloat (F64.add (to_float a) x).

(** [a / k] for an int [k].  Between two ints a zero divisor is a
    [ZeroDivisionError]; a float score is a numpy scalar, whose division by
    zero gives an infinity or a NaN and raises nothing.  (A selector built
    by [__init__] never divides a float by zero: [DIC_of_single_entry].) *)
Definition num_truediv (a : pynum) (k : Z) : res float :=
  match a with
  | PyInt z =>
      if k =? 0 then Raise ZeroDivisionError
      else Ok (F64.div (F64.of_Z z) (F64.of_Z k))
  | PyFloat f => Ok (F64.div f (F64.of_Z k))
  end.

(** The attributes [ModelSelector.__init__] sets.  [verbose] only switches
    printing, which the model leaves out. *)
Record ModelSelector : Type := {
  words : dict (list features);
  hwords : dict (features * seq_lengths);
  sequences : list features;
  X : features;
  lengths : seq_lengths;
  this_word : string;
  n_constant : Z;
  min_n_components : Z;
  max_n_components : Z;
  random_state : Z;
  verbose : bool
}.

(** [ModelSelector.__init__]; both lookups of [this_word] can raise. *)
Definition ModelSelector_init (all_word_sequences : dict (list features))
    (all_word_Xlengths : dict (features * seq_lengths)) (this_word : string)
    (n_constant min_n_components max_n_components random_state : Z)
    (verbose : bool) : res ModelSelector :=
  match dict_get all_word_sequences this_word with
  | Ok seqs =>
      match dict_get all_word_Xlengths this_word with
      | Ok (X, lengths) =>
          Ok {| words := all_word_sequences;
                hwords := all_word_Xlengths;
                sequences := seqs;
                X := X;
                lengths := lengths;
                this_word := this_word;
                n_constant := n_constant;
                min_n_components := min_n_components;
                max_n_components := max_n_components;
                random_state := random_state;
                verbose := verbose |}
      | Raise e => Raise e
      end
  | Raise e => Raise e
  end.

(** The defaults of [__init__]: [n_constant=3, min_n_components=2,
    max_n_components=10, random_state=14, verbose=False]. *)
Definition ModelSelector_default (all_word_sequences : dict (list features))
    (all_word_Xlengths : dict (features * seq_lengths)) (this_word : string)
    : res ModelSelector :=
  ModelSelector_init all_word_sequences all_word_Xlengths this_word
    3 2 10 14 false.

(** [range(self.min_n_components, self.max_n_components+1)] *)
Definition candidates (s : ModelSelector) : list Z :=
  range (min_n_components s) (max_n_components s + 1).

(** *** sklearn's [KFold] (no shuffling)

    [KFold(n_splits)] refuses [n_splits <= 1]; [split] refuses more splits
    than samples, gives the first [n_samples % n_splits] folds one sample
    more than the others, and yields for each fold the contiguous block of
    test indices with the remaining indices, in order, as the train ones. *)
Definition KFold (n_splits : Z) : res nat :=
  if n_splits <=? 1 then Raise ValueError else Ok (Z.to_nat n_splits).

Fixpoint fold_blocks (sizes : list nat) (start : nat) : list (list nat) :=
  match sizes with
  | [] => []
  | sz :: sizes' => seq start sz :: fold_blocks sizes' (start + sz)
  end.

Definition KFold_split (n_splits n_samples : nat)
    : res (list (list nat * list nat)) :=
  if (n_samples <? n_splits)%nat then Raise ValueError
  else
    let q := (n_samples / n_splits)%nat in
    let r := (n_samples mod n_splits)%nat in
    let sizes :=
      map (fun i => if (i <? r)%nat then S q else q) (seq 0 n_splits) in
    Ok (map (fun test =>
               (filter (fun i => negb (existsb (Nat.eqb i) test))
                       (seq 0 n_samples),
                test))
            (fold_blocks sizes 0)).

(** Modelled from the spec: [asl_utils.combine_sequences] (not among the
    sources) concatenates the sequences at the given indices, in that order,
    into one feature matrix, with the list of their lengths. *)
Fixpoint combine_sequences (split_index_list : list nat)
    (sequences : list features) : res (features * seq_lengths) :=
  match split_index_list with
  | [] => Ok ([], [])
  | idx :: rest =>
      match list_index sequences idx with
      | Ok sq =>
          match combine_sequences rest sequences with
          | Ok (X, lengths) => Ok (sq ++ X, List.length sq :: lengths)
          | Raise e => Raise e
          end
      | Raise e => Raise e
      end
  end.

Section Selectors.

Context {H : Hmmlearn}.

(** [ModelSelector.base_model] *)
Definition base_model (s : ModelSelector) (num_states : Z)
    : py (option Model) :=
  try_except
    (hmm_model <- GaussianHMM_fit (Some (random_state s)) num_states
                    (X s) (lengths s) ;;
     ret (Some hmm_model))
    (ret None).

(** ** SelectorConstant *)

Definition SelectorConstant_select (s : ModelSelector) : py (option Model) :=
  let best_num_components := n_constant s in
  base_model s best_num_components.

(** ** SelectorBIC *)

(** Lines 90-93: the score of a trained and scored candidate. *)
Definition BIC_score (s : ModelSelector) (n_components : Z) (logL : float)
    : res float :=
  match list_index (X s) 0 with
  | Ok row =>
      let n_features := len row in
      let p := n_components ^ 2 + 2 * n_components * n_features - 1 in
      let N := len (X s) in
      Ok (F64.add (F64.mul (F64.of_Z (-2)) logL)
                  (F64.mul (F64.of_Z p) (np_log N)))
  | Raise e => Raise e
  end.

(** Lines 88-93: train, score, compute the criterion. *)
Definition BIC_candidate (s : ModelSelector) (n_components : Z)
    : py (Model * float) :=
  model <- GaussianHMM_fit None n_components (X s) (lengths s) ;;
  logL <- model_score model (X s) (lengths s) ;;
  bic <- lift (BIC_score s n_components logL) ;;
  ret (model, bic).

(** Lines 87-98: one turn of the loop on [(best_bic, best_model)]. *)
Definition BIC_step (s : ModelSelector) (n_components : Z)
    (st : float * option Model) : py (float * option Model) :=
  try_except
    (' (model, bic) <- BIC_candidate s n_components ;;
     if F64.ltb bic (fst st) then ret (bic, Some model) else ret st)
    (ret st).

Definition SelectorBIC_select (s : ModelSelector) : py (option Model) :=
  let best_bic := F64.inf in
  let best_model := None in
  st <- for_each (candidates s) (BIC_step s) (best_bic, best_model) ;;
  ret (snd st).

(** ** SelectorDIC *)

(** Lines 131-137: one turn of [for other_word in self.words]. *)
Definition DIC_other (s : ModelSelector) (model : Model)
    (other_word : string) (other_logL_sum : pynum) : py pynum :=
  if String.eqb other_word (this_word s) then ret other_logL_sum
  else
    ' (other_X, other_lengths) <- lift (dict_get (hwords s) other_word) ;;
    other_logL <- model_score model other_X other_lengths ;;
    ret (num_add other_logL_sum other_logL).

(** Lines 125-138 *)
Definition DIC_candidate (s : ModelSelector) (n_components : Z)
    : py (Model * float) :=
  let M := len (hwords s) in
  model <- GaussianHMM_fit None n_components (X s) (lengths s) ;;
  logL <- model_score model (X s) (lengths s) ;;
  other_logL_sum <-
    for_each (dict_keys (words s)) (DIC_other s model) (PyInt 0) ;;
  q <- lift (num_truediv other_logL_sum (M - 1)) ;;
  ret (model, F64.sub logL q).

(** Lines 123-147: one turn of the loop on [(best_dic, best_model)]. *)
Definition DIC_step (s : ModelSelector) (n_components : Z)
    (st : float * option Model) : py (float * option Model) :=
  try_except
    (' (model, dic) <- DIC_candidate s n_components ;;
     if F64.gtb dic (fst st) then ret (dic, Some model) else ret st)
    (ret st).

Definition SelectorDIC_select (s : ModelSelector) : py (option Model) :=
  let best_dic := F64.neg_inf in
  let best_model := None in
  st <- for_each (candidates s) (DIC_step s) (best_dic, best_model) ;;
  ret (snd st).

(** ** SelectorCV *)

(** Lines 170-174: one fold. *)
Definition CV_fold (s : ModelSelector) (n_components : Z)
    (fold : list nat * list nat) (logL_sum : pynum) : py pynum :=
  let (train_index, test_index) := fold in
  ' (X_train, lengths_train) <-
      lift (combine_sequences train_index (sequences s)) ;;
  ' (X_test, lengths_test) <-
      lift (combine_sequences test_index (sequences s)) ;;
  model <- GaussianHMM_fit None n_components X_train lengths_train ;;
  logL <- model_score model X_test lengths_test ;;
  ret (num_add logL_sum logL).

(** Lines 166-175: the average held-out log-likelihood of a candidate. *)
Definition CV_average (s : ModelSelector) (n_components : Z) : py float :=
  let split_n := Z.min (len (sequences s)) 3 in
  split_method <- lift (KFold split_n) ;;
  folds <- lift (KFold_split split_method (List.length (sequences s))) ;;
  logL_sum <- for_each folds (CV_fold s n_components) (PyInt 0) ;;
  lift (num_truediv logL_sum split_n).

(** Lines 165-180: one turn of the loop on [(best_cv, best_model)].  The
    assignment to [best_cv] comes before the training on the whole data, so
    it stays when that training raises. *)
Definition CV_step (s : ModelSelector) (n_components : Z)
    (st : float * option Model) : py (float * option Model) :=
  try_except
    (logL_avg <- CV_average s n_components ;;
     if F64.gtb logL_avg (fst st) then
       try_except
         (model <- GaussianHMM_fit None n_components (X s) (lengths s) ;;
          ret (logL_avg, Some model))
         (ret (logL_avg, snd st))
     else ret st)
    (ret st).

Definition SelectorCV_select (s : ModelSelector) : py (option Model) :=
  let best_cv := F64.neg_inf in
  let best_model := None in
  st <- for_each (candidates s) (CV_step s) (best_cv, best_model) ;;
  ret (snd st).

End Selectors.

(** * What a run came to

    The observations the theorems speak about: what each candidate of a
    sweep came to, in the order tried, with the generator threaded from one
    candidate to the next as the loop does. *)

Section Sweep.

Context {H : Hmmlearn}.

Variable cand : Z -> py (Model * float).
Variable better : float -> float -> bool.

(** The loop body shared by the BIC and DIC sweeps: evaluate the candidate,
    keep it when it is strictly better, ignore it when anything raised. *)
Definition sweep_step (n : Z) (st : float * option Model)
    : py (float * option Model) :=
  try_except
    (' (model, v) <- cand n ;;
     if better v (fst st) then ret (v, Some model) else ret st)
    (ret st).

Fixpoint sweep_outcomes (ns : list Z) (w : world)
    : list (Z * res (Model * float)) :=
  match ns with
  | [] => []
  | n :: ns' => (n, fst (cand n w)) :: sweep_outcomes ns' (snd (cand n w))
  end.

Fixpoint sweep_world (ns : list Z) (w : world) : world :=
  match ns with
  | [] => w
  | n :: ns' => sweep_world ns' (snd (cand n w))
  end.

(** The running best over the candidates that succeeded. *)
Fixpoint sweep_best (out : list (Z * res (Model * float)))
    (st : float * option Model) : float * option Model :=
  match out with
  | [] => st
  | (_, Ok (model, v)) :: out' =>
      sweep_best out' (if better v (fst st) then (v, Some model) else st)
  | (_, Raise _) :: out' => sweep_best out' st
  end.

End Sweep.

Section Observations.

Context {H : Hmmlearn}.

Definition BIC_outcomes (s : ModelSelector) (w : world)
    : list (Z * res (Model * float)) :=
  sweep_outcomes (BIC_candidate s) (candidates s) w.

Definition DIC_outcomes (s : ModelSelector) (w : world)
    : list (Z * res (Model * float)) :=
  sweep_outcomes (DIC_candidate s) (candidates s) w.

(** The words [SelectorDIC] scores a candidate against: every key of
    [self.words] but [this_word], in the dict's order. *)
Definition DIC_others (s : ModelSelector) : list string :=
  filter (fun w => negb (String.eqb w (this_word s))) (dict_keys (words s)).

(** [model] scores [logL] on the concatenated features of [other_word]. *)
Definition scores_other (s : ModelSelector) (model : Model)
    (other_word : string) (logL : float) : Prop :=
  exists other_X other_lengths,
    dict_get (hwords s) other_word = Ok (other_X, other_lengths) /\
    hmm_score model other_X other_lengths = Ok logL.

(** [word]'s model scores [logL] on a test item. *)
Definition scores_item (models : dict (option Model))
    (item : features * seq_lengths) (word : string) (logL : float) : Prop :=
  exists model,
    dict_get models word = Ok (Some model) /\
    hmm_score model (fst item) (snd item) = Ok logL.

(** The likelihood table of a test item: exactly the words whose model
    scores the item, each with that score. *)
Definition is_table (models : dict (option Model))
    (item : features * seq_lengths) (p : dict float) : Prop :=
  forall word logL,
    dict_get p word = Ok logL <-> scores_item models item word logL.

(** [g] is an arg-max key of the table [p]: it has an entry, and no entry
    of the table is strictly greater. *)
Definition is_argmax (p : dict float) (g : string) : Prop :=
  exists best,
    dict_get p g = Ok best /\
    forall word logL, dict_get p word = Ok logL -> F64.gtb logL best = false.

(** The folds of [SelectorCV] for a word. *)
Definition CV_folds (s : ModelSelector) : res (list (list nat * list nat)) :=
  match KFold (Z.min (len (sequences s)) 3) with
  | Ok k => KFold_split k (List.length (sequences s))
  | Raise e => Raise e
  end.

(** The folds of a candidate tried one by one, as a handler around each
    fold would run them: a fold that raises leaves the running sum as it
    was, and the next fold is still tried. *)
Fixpoint CV_fold_outcomes (s : ModelSelector) (n_components : Z)
    (folds : list (list nat * list nat)) (acc : pynum) (w : world)
    : list (res pynum) :=
  match folds with
  | [] => []
  | fold :: folds' =>
      match CV_fold s n_components fold acc w with
      | (Ok acc', w') =>
          Ok acc' :: CV_fold_outcomes s n_components folds' acc' w'
      | (Raise e, w') =>
          Raise e :: CV_fold_outcomes s n_components folds' acc w'
      end
  end.

(** What each candidate of the cross-validation sweep came to: its
    average, or the exception that ended it, and, when the average set a
    new best, what the training on the whole data came to. *)
Fixpoint CV_trace (s : ModelSelector) (ns : list Z)
    (st : float * option Model) (w : world)
    : list (Z * res float * option (res Model)) :=
  match ns with
  | [] => []
  | n :: ns' =>
      match CV_average s n w with
      | (Ok logL_avg, w1) =>
          if F64.gtb logL_avg (fst st) then
            match GaussianHMM_fit None n (X s) (lengths s) w1 with
            | (Ok model, w2) =>
                (n, Ok logL_avg, Some (Ok model))
                  :: CV_trace s ns' (logL_avg, Some model) w2
            | (Raise e, w2) =>
                (n, Ok logL_avg, Some (Raise e))
                  :: CV_trace s ns' (logL_avg, snd st) w2
            end
          else (n, Ok logL_avg, None) :: CV_trace s ns' st w1
      | (Raise e, w1) => (n, Raise e, None) :: CV_trace s ns' st w1
      end
  end.

Definition CV_outcomes (s : ModelSelector) (w : world)
    : list (Z * res float * option (res Model)) :=
  CV_trace s (candidates s) (F64.neg_inf, None) w.

(** *** The criteria as the specification words them

    The specification's BIC of a candidate with [n] states, trained with
    the generator in state [g] on the word's whole data:
    [BIC(n) = -2 logL + p(n) ln N], [p(n) = n^2 + 2 n d - 1], where [d] is
    the feature dimension and [N] the number of rows. *)
Definition BIC_of (s : ModelSelector) (g : RNG) (n : Z) : res (Model * float) :=
  and_then (fst (hmm_fit g n (X s) (lengths s))) (fun model =>
  and_then (hmm_score model (X s) (lengths s)) (fun logL =>
  and_then (list_index (X s) 0) (fun row =>
  let d := len row in
  let N := len (X s) in
  let p := n ^ 2 + 2 * n * d - 1 in
  Ok (model,
      F64.add (F64.mul (F64.of_Z (-2)) logL)
              (F64.mul (F64.of_Z p) (np_log N)))))).

(** The scores of [model] on the data of each of [ws], in order. *)
Fixpoint other_scores (s : ModelSelector) (model : Model) (ws : list string)
    : res (list float) :=
  match ws with
  | [] => Ok []
  | other_word :: ws' =>
      and_then (dict_get (hwords s) other_word) (fun other =>
      and_then (hmm_score model (fst other) (snd other)) (fun logL =>
      and_then (other_scores s model ws') (fun logLs =>
      Ok (logL :: logLs))))
  end.

(** The specification's DIC: [logL_self] minus the sum of the scores on
    the other words over [M - 1], [M] the number of entries of the
    concatenated-feature mapping. *)
Definition DIC_of (s : ModelSelector) (g : RNG) (n : Z) : res (Model * float) :=
  and_then (fst (hmm_fit g n (X s) (lengths s))) (fun model =>
  and_then (hmm_score model (X s) (lengths s)) (fun logL_self =>
  and_then (other_scores s model (DIC_others s)) (fun logL_other =>
  let M := len (hwords s) in
  and_then (num_truediv (fold_left num_add logL_other (PyInt 0)) (M - 1))
    (fun mean => Ok (model, F64.sub logL_self mean))))).

End Observations.

(** * A small trainer to run the code on

    The examples run the selectors and the recogniser with a trainer that
    is simple enough to follow by hand: a trained model records the state
    count it was asked for, the state of the generator it started from and
    the number of rows it saw; training takes one draw from the generator;
    whether a training succeeds and what a model scores are tables chosen
    per example. *)

Module Toy.

Record toy_model : Type := {
  t_states : Z;
  t_init : Z;
  t_rows : nat
}.

(** [ln N], correctly rounded, for the row counts the examples use. *)
Definition toy_log (N : Z) : float :=
  match N with
  | 1 => S754_zero false
  | 2 => S754_finite false 6243314768165359 (-53)
  | 3 => S754_finite false 4947709893870347 (-52)
  | 4 => S754_finite false 6243314768165359 (-52)
  | 5 => S754_finite false 7248263982714163 (-52)
  | 6 => S754_finite false 8069367277953026 (-52)
  | _ => F64.nan
  end.

Definition trainer (fit_ok : Z -> Z -> nat -> bool)
    (score : toy_model -> nat -> res float) : Hmmlearn :=
  {| Model := toy_model;
     RNG := Z;
     hmm_fit := fun g n X _ =>
       (if fit_ok g n (List.length X)
        then Ok {| t_states := n; t_init := g; t_rows := List.length X |}
        else Raise ValueError,
        g + 1);
     RandomState := fun seed => seed;
     hmm_score := fun m X _ => score m (List.length X);
     np_log := toy_log |}.

Definition always (g n : Z) (rows : nat) : bool := true.

(** A score that depends on the state count alone. *)
Fixpoint by_states (table : list (Z * float)) (m : toy_model) (rows : nat)
    : res float :=
  match table with
  | [] => Raise ValueError
  | (n, logL) :: table' =>
      if t_states m =? n then Ok logL else by_states table' m rows
  end.

(** A score that depends on the state count and on the rows scored. *)
Fixpoint by_states_rows (table : list (Z * nat * float)) (m : toy_model)
    (rows : nat) : res float :=
  match table with
  | [] => Raise ValueError
  | (n, r, logL) :: table' =>
      if (t_states m =? n) && (rows =? r)%nat then Ok logL
      else by_states_rows table' m rows
  end.

(** [k] frames of one feature each *)
Definition frames (k : nat) : features := repeat [S754_zero false] k.

(** A test item of [k] frames in one sequence *)
Definition item (k : nat) : features * seq_lengths := (frames k, [k]).

Definition start (H : Hmmlearn) (g : RNG) : world := {| rng := g; calls := [] |}.

(** Three words: CAT with sequences of 1, 2 and 3 frames, DOG with two
    sequences of 2 frames, BIRD with one sequence of 5 frames. *)
Definition all_word_sequences : dict (list features) :=
  [("CAT"%string, [frames 1; frames 2; frames 3]);
   ("DOG"%string, [frames 2; frames 2]);
   ("BIRD"%string, [frames 5])].

Definition all_word_Xlengths : dict (features * seq_lengths) :=
  [("CAT"%string, (frames 6, [1; 2; 3]%nat));
   ("DOG"%string, (frames 4, [2; 2]%nat));
   ("BIRD"%string, (frames 5, [5]%nat))].

Definition selector (this_word : string) (lo hi : Z) : ModelSelector :=
  match ModelSelector_init all_word_sequences all_word_Xlengths this_word
          3 lo hi 14 false with
  | Ok s => s
  | Raise _ =>
      {| words := []; hwords := []; sequences := []; X := []; lengths := [];
         this_word := this_word; n_constant := 3; min_n_components := lo;
         max_n_components := hi; random_state := 14; verbose := false |}
  end.

(** A vocabulary of one word. *)
Definition lone_selector : ModelSelector :=
  {| words := [("CAT"%string, [frames 1; frames 2; frames 3])];
     hwords := [("CAT"%string, (frames 6, [1; 2; 3]%nat))];
     sequences := [frames 1; frames 2; frames 3];
     X := frames 6;
     lengths := [1; 2; 3]%nat;
     this_word := "CAT"%string;
     n_constant := 3;
     min_n_components := 2;
     max_n_components := 10;
     random_state := 14;
     verbose := false |}.

(** *** The trainers of the examples *)

(** The likelihood grows with the state count, ever more slowly. *)
Definition bic_trainer : Hmmlearn :=
  trainer always
    (by_states [(2, F64.of_Z (-80)); (3, F64.of_Z (-60)); (4, F64.of_Z (-59))]).

(** CAT's models on CAT's 6 rows, DOG's 4 and BIRD's 5. *)
Definition dic_trainer : Hmmlearn :=
  trainer always
    (by_states_rows
       [(2, 6%nat, F64.of_Z (-80)); (2, 4%nat, F64.of_Z (-100));
        (2, 5%nat, F64.of_Z (-120));
        (3, 6%nat, F64.of_Z (-60)); (3, 4%nat, F64.of_Z (-70));
        (3, 5%nat, F64.of_Z (-80));
        (4, 6%nat, F64.of_Z (-59)); (4, 4%nat, F64.of_Z (-150));
        (4, 5%nat, F64.of_Z (-170))]).

(** Training with 3 states fails on 6 rows, that is on CAT's whole data,
    and nowhere else. *)
Definition cv_trainer : Hmmlearn :=
  trainer (fun g n rows => negb ((n =? 3) && (rows =? 6)%nat))
    (by_states [(2, F64.of_Z (-100)); (3, F64.of_Z (-50))]).

(** Training fails on 4 rows, that is on CAT's second fold (sequences 0
    and 2), and nowhere else. *)
Definition fold_trainer : Hmmlearn :=
  trainer (fun g n rows => negb (rows =? 4)%nat)
    (by_states [(2, F64.of_Z (-100)); (3, F64.of_Z (-50))]).

(** The model depends on where the generator stood: a start from a state
    that is 0 or 3 modulo 4 reaches the better optimum. *)
Definition seeded_trainer : Hmmlearn :=
  trainer always
    (fun m rows =>
       if (t_init m mod 4 =? 0) || (t_init m mod 4 =? 3)
       then Ok (F64.of_Z (-50)) else Ok (F64.of_Z (-100))).

(** The recogniser's scores: the specification's
    [{"CAT": -320.5, "DOG": -318.2, "BIRD": -325.0}] on items of up to two
    frames, and a failure for every model on longer items. *)
Definition rec_trainer : Hmmlearn :=
  trainer always
    (fun m rows =>
       if (rows <=? 2)%nat then
         by_states [(2, F64.dyadic (-641) (-1));
                    (3, F64.div (F64.of_Z (-3182)) (F64.of_Z 10));
                    (4, F64.of_Z (-325))] m rows
       else Raise ValueError).

(** Trained models with 2, 3 and 4 states *)
Definition cat_model : toy_model := {| t_states := 2; t_init := 0; t_rows := 6 |}.
Definition dog_model : toy_model := {| t_states := 3; t_init := 1; t_rows := 4 |}.
Definition bird_model : toy_model := {| t_states := 4; t_init := 2; t_rows := 5 |}.

Definition models : dict (option toy_model) :=
  [("CAT"%string, Some cat_model);
   ("DOG"%string, Some dog_model);
   ("BIRD"%string, Some bird_model)].

End Toy.

(** * Further observations

    What the later theorems speak about: the calls a run adds to the log,
    the table of an item written out entry by entry, and the first arg-max
    of a table. *)

Section MoreObservations.

Context {H : Hmmlearn}.

Definition is_fit (c : call) : bool :=
  match c with
  | FitCall _ _ _ _ => true
  | ScoreCall _ _ _ => false
  end.

Definition is_score (c : call) : Prop :=
  match c with
  | FitCall _ _ _ _ => False
  | ScoreCall _ _ _ => True
  end.

(** A call that passes no [random_state] to [GaussianHMM]. *)
Definition unseeded (c : call) : Prop :=
  match c with
  | FitCall random_state _ _ _ => random_state = None
  | ScoreCall _ _ _ => True
  end.

(** [w'] is [w] after some more calls, each of them a [P]. *)
Definition extends (P : call -> Prop) (w w' : world) : Prop :=
  exists new, calls w' = calls w ++ new /\ Forall P new.

(** The entries of an item's table, read off the models in their order:
    one entry for each word whose model is there and scores the item. *)
Fixpoint scored_entries (models : dict (option Model))
    (X : features) (lengths : seq_lengths) : dict float :=
  match models with
  | [] => []
  | (word, Some model) :: models' =>
      match hmm_score model X lengths with
      | Ok logL => (word, logL) :: scored_entries models' X lengths
      | Raise _ => scored_entries models' X lengths
      end
  | (_, None) :: models' => scored_entries models' X lengths
  end.

Definition no_nan (p : dict float) : Prop :=
  forall word logL, dict_get p word = Ok logL -> logL <> S754_nan.

(** [g] is a key of [p] with the greatest value: it has an entry, and every
    entry of the table is less than or equal to it ([SFleb] is IEEE's
    [<=], false as soon as one side is a NaN). *)
Definition is_greatest (p : dict float) (g : string) : Prop :=
  exists best,
    dict_get p g = Ok best /\
    forall word logL, dict_get p word = Ok logL -> SFleb logL best = true.

(** [g] is the first key of [p] whose value is greatest: the keys before it
    have strictly smaller values, and no key after it has a greater one. *)
Definition is_first_argmax (p : dict float) (g : string) : Prop :=
  exists before after best,
    dict_keys p = before ++ g :: after /\
    dict_get p g = Ok best /\
    (forall word logL, In word before -> dict_get p word = Ok logL ->
       F64.gtb best logL = true) /\
    (forall word logL, In word after -> dict_get p word = Ok logL ->
       F64.gtb logL best = false).

(** The candidate returned by a sweep is the first of the best: [better]
    than every candidate tried before it whose criterion is a number, and
    not bettered by any tried after it. *)
Definition first_best (better : float -> float -> bool)
    (out : list (Z * res (Model * float))) (model : Model) : Prop :=
  exists before n v after,
    out = before ++ (n, Ok (model, v)) :: after /\
    (forall n' m' v', In (n', Ok (m', v')) before -> v' <> S754_nan ->
       better v v' = true) /\
    (forall n' m' v', In (n', Ok (m', v')) after -> better v' v = false).

End MoreObservations.

(** A trainer that draws nothing: training on [rows] rows succeeds for up
    to [rows] states, the model is its state count, and it scores
    [-(states - 3)^2 - rows]. *)
Module Plain.

Definition trainer : Hmmlearn :=
  {| Model := Z;
     RNG := Z;
     hmm_fit := fun g n X _ =>
       (if (1 <=? n) && (n <=? len X) then Ok n else Raise ValueError, g + 1);
     RandomState := fun seed => seed;
     hmm_score := fun m X _ => Ok (F64.of_Z (- (m - 3) ^ 2 - len X));
     np_log := Toy.toy_log |}.


(** A selector for a word whose feature matrix has no row. *)
Definition empty_selector : ModelSelector :=
  {| words := [("CAT"%string, [])];
     hwords := [("CAT"%string, ([], []))];
     sequences := [];
     X := [];
     lengths := [];
     this_word := "CAT"%string;
     n_constant := 3;
     min_n_components := 2;
     max_n_components := 4;
     random_state := 14;
     verbose := false |}.

(** A word with a single frame: [N = 1], so [ln N = 0] and the BIC is
    [-2 logL] whatever the state count. *)
Definition one_row_selector : ModelSelector :=
  {| words := [("CAT"%string, [Toy.frames 1])];
     hwords := [("CAT"%string, (Toy.frames 1, [1%nat]))];
     sequences := [Toy.frames 1];
     X := Toy.frames 1;
     lengths := [1%nat];
     this_word := "CAT"%string;
     n_constant := 3;
     min_n_components := 2;
     max_n_components := 4;
     random_state := 14;
     verbose := false |}.

(** Models with 2 and 3 states fit equally well, one with 4 worse. *)
Definition tie_trainer : Hmmlearn :=
  Toy.trainer Toy.always
    (Toy.by_states [(2, F64.of_Z (-50)); (3, F64.of_Z (-50));
                    (4, F64.of_Z (-60))]).

(** Two words that score the same on every item. *)
Definition twins : dict (option Z) :=
  [("CAT"%string, Some 2); ("DOG"%string, None); ("COW"%string, Some 4);
   ("EEL"%string, Some 3); ("ANT"%string, Some 3)].

End Plain.

(** * Theorems *)

(** ** Comparisons of binary64 numbers *)

Lemma SFltb_trans (a b c : float) :
  SFltb a b = true -> SFltb b c = true -> SFltb a c = true.
Proof.
  unfold SFltb, SFcompare.
  destruct a as [sa|sa| |sa ma ea], b as [sb|sb| |sb mb eb],
           c as [sc|sc| |sc mc ec];
    try destruct sa; try destruct sb; try destruct sc;
    try discriminate; auto.
  all: destruct (Z.compare_spec ea eb), (Z.compare_spec eb ec),
         (Z.compare_spec ea ec); try discriminate; try lia; auto; subst.
  all: rewrite ?Pos.compare_cont_spec in *; simpl in *.
  all: destruct (Pos.compare_spec ma mb), (Pos.compare_spec mb mc),
         (Pos.compare_spec ma mc); simpl in *; try discriminate; try lia; auto.
Qed.

Lemma SFltb_irrefl (a : float) : SFltb a a = false.
Proof.
  unfold SFltb, SFcompare.
  destruct a as [sa|sa| |sa ma ea]; try destruct sa; auto.
  all: rewrite Z.compare_refl, Pos.compare_cont_spec, Pos.compare_refl;
    reflexivity.
Qed.

(** Of two numbers, the one that is not above the other is below it or
    equal to it. *)
Lemma SFleb_not_gt (a b : float) :
  SFltb b a = false -> a <> S754_nan -> b <> S754_nan -> SFleb a b = true.
Proof.
  unfold SFltb, SFleb, SFcompare.
  destruct a as [sa|sa| |sa ma ea], b as [sb|sb| |sb mb eb];
    try destruct sa; try destruct sb; try discriminate; try congruence; auto.
  all: rewrite (Z.compare_antisym ea eb);
    destruct (Z.compare ea eb); simpl; try discriminate; auto.
  all: rewrite !Pos.compare_cont_spec; simpl;
    rewrite (Pos.compare_antisym ma mb);
    destruct (Pos.compare ma mb); simpl; try discriminate; auto.
Qed.

Lemma ltb_strict : strict F64.ltb.
Proof. split; [exact SFltb_irrefl | exact SFltb_trans]. Qed.

Lemma gtb_strict : strict F64.gtb.
Proof.
  split; [exact SFltb_irrefl |].
  unfold F64.gtb; intros a b c Hab Hbc. exact (SFltb_trans c b a Hbc Hab).
Qed.

(** ** Dictionaries *)

Lemma dict_get_set {V} (d : dict V) (k k' : string) (v : V) :
  dict_get (dict_set d k v) k' =
  if String.eqb k' k then Ok v else dict_get d k'.
Proof.
  induction d as [|[k0 v0] d IH]; simpl.
  - destruct (String.eqb k' k); reflexivity.
  - destruct (String.eqb_spec k k0) as [->|Hk]; simpl.
    + destruct (String.eqb_spec k' k0); reflexivity.
    + rewrite IH. destruct (String.eqb_spec k' k0) as [->|Hk'].
      * destruct (String.eqb_spec k0 k); [congruence | reflexivity].
      * reflexivity.
Qed.

Lemma dict_get_keys {V} (d : dict V) (k : string) :
  In k (dict_keys d) <-> exists v, dict_get d k = Ok v.
Proof.
  induction d as [|[k0 v0] d IH]; simpl.
  - split; [tauto | intros [v Hv]; discriminate].
  - destruct (String.eqb_spec k k0) as [->|Hk].
    + split; eauto.
    + rewrite <- IH. split; [intros [?|?]; [congruence | assumption] | auto].
Qed.

(** ** The interpreter *)

Section InterpreterFacts.

Context {H : Hmmlearn}.

Lemma for_each_app {A S} (xs ys : list A) (body : A -> S -> py S) (st : S)
    (w : world) :
  for_each (xs ++ ys) body st w =
  match for_each xs body st w with
  | (Ok st', w') => for_each ys body st' w'
  | (Raise e, w') => (Raise e, w')
  end.
Proof.
  revert st w; induction xs as [|x xs IH]; intros st w; simpl.
  - reflexivity.
  - unfold bind. destruct (body x st w) as [[st'|e] w']; [apply IH | reflexivity].
Qed.

Lemma for_each_skip {A S} (x : A) (xs : list A) (body : A -> S -> py S)
    (st : S) (w w' : world) :
  body x st w = (Ok st, w') ->
  for_each (x :: xs) body st w = for_each xs body st w'.
Proof. intros Hb. simpl. unfold bind. rewrite Hb. reflexivity. Qed.

Lemma range_0 (n : nat) : range 0 (Z.of_nat n) = map Z.of_nat (seq 0 n).
Proof.
  unfold range. rewrite Z.sub_0_r, Nat2Z.id. apply map_ext; intros; lia.
Qed.

Lemma range_In (a b n : Z) : In n (range a b) <-> a <= n < b.
Proof.
  unfold range. rewrite in_map_iff. split.
  - intros (i & <- & Hi). apply in_seq in Hi. lia.
  - intros Hn. exists (Z.to_nat (n - a)). split; [lia|]. apply in_seq. lia.
Qed.

(** The candidates are the state counts from [min_n_components] to
    [max_n_components], both included. *)
Lemma candidates_In (s : ModelSelector) (n : Z) :
  In n (candidates s) <-> min_n_components s <= n <= max_n_components s.
Proof. unfold candidates. rewrite range_In. lia. Qed.

End InterpreterFacts.

(** ** The recogniser *)

Section RecognizerFacts.

Context {H : Hmmlearn}.

Lemma scores_item_fun models item word l1 l2 :
  scores_item models item word l1 -> scores_item models item word l2 -> l1 = l2.
Proof.
  intros (m1 & Hm1 & Hs1) (m2 & Hm2 & Hs2). congruence.
Qed.

(** One (item, word) pair: the word is entered when its model scores the
    item and left out when anything raises; the loop goes on either way. *)
Lemma recognize_word_run models X length word logLs w :
  exists w',
    rng w' = rng w /\
    ((exists logL, scores_item models (X, length) word logL /\
        recognize_word models X length word logLs w
        = (Ok (dict_set logLs word logL), w')) \/
     ((forall logL, ~ scores_item models (X, length) word logL) /\
        recognize_word models X length word logLs w = (Ok logLs, w'))).
Proof.
  unfold recognize_word, try_except, bind, lift, score_of, scores_item; simpl.
  destruct (dict_get models word) as [[m|]|e] eqn:Hget.
  - unfold model_score. destruct (hmm_score m X length) as [l|e] eqn:Hs.
    + eexists {| rng := rng w; calls := _ |}; split; [reflexivity|].
      left; exists l; split; [exists m; auto | reflexivity].
    + eexists {| rng := rng w; calls := _ |}; split; [reflexivity|].
      right; split; [|reflexivity].
      intros l (m' & Hm' & Hs'). congruence.
  - exists w; split; [reflexivity|].
    right; split; [|reflexivity]. intros l (m' & Hm' & _). congruence.
  - exists w; split; [reflexivity|].
    right; split; [|reflexivity]. intros l (m' & Hm' & _). congruence.
Qed.

Lemma recognize_words_run models X length keys :
  forall logLs w,
  exists p w',
    for_each keys (recognize_word models X length) logLs w = (Ok p, w') /\
    rng w' = rng w /\
    forall word logL,
      dict_get p word = Ok logL <->
      (In word keys /\ scores_item models (X, length) word logL) \/
      (~ (In word keys /\ exists l, scores_item models (X, length) word l) /\
       dict_get logLs word = Ok logL).
Proof.
  induction keys as [|k keys IH]; intros logLs w; simpl.
  - exists logLs, w. split; [reflexivity|]. split; [reflexivity|].
    intros word l; split; [intros Hg; right; split; [tauto|assumption] | ].
    intros [[[] _]|[_ Hg]]; assumption.
  - unfold bind.
    destruct (recognize_word_run models X length k logLs w)
      as (w1 & Hrng & [(l & Hsc & ->)|(Hno & ->)]).
    + destruct (IH (dict_set logLs k l) w1) as (p & w' & -> & Hrng' & Hp).
      exists p, w'. split; [reflexivity|]. split; [congruence|].
      intros word l'. rewrite Hp, dict_get_set.
      destruct (String.eqb_spec word k) as [->|Hne].
      * split.
        -- intros [[_ Hs]|[_ Heq]]; left; split; auto.
           injection Heq as <-; assumption.
        -- intros [[_ Hs]|[Hn _]].
           ++ destruct (in_dec string_dec k keys) as [Hin|Hin];
                [left; auto | right]. split; [tauto|].
              f_equal. eapply scores_item_fun; eassumption.
           ++ exfalso; apply Hn; split; eauto.
      * split.
        -- intros [[Hin Hs]|[Hn Hg]]; [left; auto | right; split; auto].
           intros [[Heq|Hin] Hex]; [congruence | apply Hn; auto].
        -- intros [[[Heq|Hin] Hs]|[Hn Hg]]; [congruence | left; auto | right].
           split; [|assumption]. intros [Hin Hex]; apply Hn; auto.
    + destruct (IH logLs w1) as (p & w' & -> & Hrng' & Hp).
      exists p, w'. split; [reflexivity|]. split; [congruence|].
      intros word l'. rewrite Hp. split.
      * intros [[Hin Hs]|[Hn Hg]]; [left; auto | right; split; auto].
        intros [[Heq|Hin] [l0 Hex]]; [subst; eapply Hno; eauto | apply Hn; eauto].
      * intros [[[Heq|Hin] Hs]|[Hn Hg]];
          [subst; exfalso; eapply Hno; eauto | left; auto | right].
        split; [|assumption]. intros [Hin Hex]; apply Hn; auto.
Qed.

(** The table of an item, built from the empty dict. *)
Lemma recognize_table models X length w :
  exists p w',
    for_each (dict_keys models) (recognize_word models X length) [] w
    = (Ok p, w') /\
    rng w' = rng w /\ is_table models (X, length) p.
Proof.
  destruct (recognize_words_run models X length (dict_keys models) [] w)
    as (p & w' & Hrun & Hrng & Hp).
  exists p, w'. split; [assumption|]. split; [assumption|].
  intros word l. rewrite Hp. split.
  - intros [[_ Hs]|[_ Hg]]; [assumption | discriminate].
  - intros Hs. left; split; [|assumption].
    destruct Hs as (m & Hm & _). apply dict_get_keys; eauto.
Qed.

End RecognizerFacts.

Section GuessFacts.

Context {H : Hmmlearn}.

Lemma max_loop_spec (key : string -> res float) (xs : list string) :
  (forall x, In x xs -> exists k, key x = Ok k) ->
  forall best best_key, key best = Ok best_key ->
  exists g kg,
    max_loop key best best_key xs = Ok g /\ key g = Ok kg /\
    (forall v, F64.gtb v best_key = false -> F64.gtb v kg = false) /\
    (forall x k, In x xs -> key x = Ok k -> F64.gtb k kg = false).
Proof.
  destruct gtb_strict as [Hirr Htr].
  induction xs as [|x xs IH]; intros Hkeys best bk Hbest; simpl.
  - exists best, bk. repeat split; auto. intros x k [].
  - destruct (Hkeys x (or_introl eq_refl)) as [k Hk]. rewrite Hk.
    assert (Hkeys' : forall y, In y xs -> exists k, key y = Ok k)
      by (intros y Hy; apply Hkeys; right; exact Hy).
    destruct (F64.gtb k bk) eqn:Hgt.
    + destruct (IH Hkeys' x k Hk) as (g & kg & Hrun & Hg & Hmono & Hall).
      exists g, kg. repeat split; auto.
      * intros v Hv. apply Hmono.
        destruct (F64.gtb v k) eqn:Hvk; [|reflexivity].
        rewrite (Htr v k bk Hvk Hgt) in Hv. discriminate.
      * intros y ky [->|Hy] Hky; [|eauto].
        replace ky with k by congruence. apply Hmono, Hirr.
    + destruct (IH Hkeys' best bk Hbest) as (g & kg & Hrun & Hg & Hmono & Hall).
      exists g, kg. repeat split; auto.
      intros y ky [->|Hy] Hky; [|eauto].
      replace ky with k by congruence. apply Hmono, Hgt.
Qed.

(** [max] over a non-empty table returns an arg-max key. *)
Lemma py_max_argmax (p : dict float) :
  p <> [] ->
  exists g, py_max (dict_keys p) (fun x => dict_get p x) = Ok g /\ is_argmax p g.
Proof.
  destruct gtb_strict as [Hirr _].
  intros Hne.
  assert (Hkeys : forall x, In x (dict_keys p) -> exists k, dict_get p x = Ok k)
    by (intros x Hx; apply dict_get_keys; exact Hx).
  destruct p as [|[k0 v0] p]; [congruence|].
  unfold py_max. cbn [dict_keys map fst].
  destruct (Hkeys k0 (or_introl eq_refl)) as [b0 Hb0]. rewrite Hb0.
  destruct (max_loop_spec (fun x => dict_get ((k0, v0) :: p) x) (dict_keys p))
    with (best := k0) (best_key := b0)
    as (g & kg & Hrun & Hg & Hmono & Hall); auto.
  { intros x Hx. apply Hkeys. right; exact Hx. }
  exists g. split; [exact Hrun|]. exists kg. split; [exact Hg|].
  intros word l Hl.
  assert (Hin : In word (dict_keys ((k0, v0) :: p)))
    by (apply dict_get_keys; eauto).
  destruct Hin as [<-|Hin]; [|eauto].
  cbn [fst] in Hl. replace l with b0 by congruence. apply Hmono, Hirr.
Qed.

Lemma guess_all_ok (probabilities : list (dict float)) :
  Forall (fun p => p <> []) probabilities ->
  exists guesses,
    guess_all probabilities = Ok guesses /\
    Forall2 is_argmax probabilities guesses.
Proof.
  induction 1 as [|p ps Hp _ IH]; simpl.
  - exists []; split; [reflexivity | constructor].
  - destruct (py_max_argmax p Hp) as (g & -> & Hg).
    destruct IH as (gs & -> & Hgs).
    exists (g :: gs); split; [reflexivity | constructor; assumption].
Qed.

(** The pass over the test items appends one table per item and never
    raises. *)
Lemma recognize_items_run models (test_set : SinglesData) :
  forall (done : SinglesData) (rest : SinglesData) acc w,
    test_set = done ++ rest ->
    exists tables w',
      for_each (map Z.of_nat (seq (List.length done) (List.length rest)))
               (recognize_item models test_set) acc w
      = (Ok (acc ++ tables), w') /\
      rng w' = rng w /\
      Forall2 (is_table models) rest tables.
Proof.
  intros done rest; revert done; induction rest as [|[X length] rest IH];
    intros done acc w Hsplit; simpl.
  - exists [], w. rewrite app_nil_r. repeat split; constructor.
  - unfold bind at 1. unfold recognize_item at 1.
    unfold bind, lift, get_item_Xlengths.
    rewrite Nat2Z.id, Hsplit, nth_error_app2, Nat.sub_diag by lia. simpl.
    destruct (recognize_table models X length w) as (p & w1 & -> & Hrng & Hp).
    unfold ret.
    destruct (IH (done ++ [(X, length)]) (acc ++ [p]) w1) as (ts & w' & Hrun & Hrng' & Hts).
    { rewrite <- app_assoc. exact Hsplit. }
    rewrite length_app, Nat.add_1_r in Hrun. rewrite <- Hsplit, Hrun.
    exists (p :: ts), w'. rewrite <- app_assoc. split; [reflexivity|].
    split; [congruence | constructor; assumption].
Qed.

End GuessFacts.

Section RecognizeTheorems.

Context {H : Hmmlearn}.

Lemma Forall2_nth_error {A B} (R : A -> B -> Prop) (l1 : list A) (l2 : list B) :
  Forall2 R l1 l2 ->
  forall i a, nth_error l1 i = Some a ->
  exists b, nth_error l2 i = Some b /\ R a b.
Proof.
  induction 1 as [|a0 b0 l1 l2 Hab _ IH]; intros [|i] a Hi; simpl in *;
    try discriminate.
  - injection Hi as <-. eauto.
  - eauto.
Qed.

Lemma guess_all_exhausted (probabilities : list (dict float)) :
  In [] probabilities -> guess_all probabilities = Raise ValueError.
Proof.
  induction probabilities as [|p ps IH]; simpl; [tauto|].
  intros Hin. destruct p as [|kv p]; [reflexivity|].
  destruct Hin as [Heq|Hin]; [discriminate|].
  destruct (py_max_argmax (kv :: p)) as (g & -> & _); [discriminate|].
  rewrite (IH Hin). reflexivity.
Qed.

(** When some test item is scored by no word model, the whole pass raises
    the [ValueError] of [max] on an empty sequence: no table and no guess
    is returned for any item. *)
Lemma recognize_exhausted models (test_set : SinglesData) w :
  (exists item, In item test_set /\
     forall word logL, ~ scores_item models item word logL) ->
  exists w', recognize models test_set w = (Raise ValueError, w').
Proof.
  intros (item & Hin & Hnone).
  destruct (recognize_items_run models test_set [] test_set [] w eq_refl)
    as (tables & w' & Hrun & _ & Htables).
  unfold recognize, num_items, len, bind. rewrite range_0.
  simpl in Hrun. rewrite Hrun. unfold lift.
  rewrite guess_all_exhausted; [eauto|].
  apply In_nth_error in Hin. destruct Hin as [i Hi].
  destruct (Forall2_nth_error _ _ _ Htables i item Hi) as (p & Hp & Htab).
  destruct p as [|[k v] p].
  - eapply nth_error_In; eassumption.
  - exfalso. apply (Hnone k v). apply Htab. simpl. rewrite String.eqb_refl.
    reflexivity.
Qed.

(** When every test item is scored by at least one word model,
    [recognize] returns a list of likelihood tables and a list of guesses,
    both as long as the test set and in its order; the [i]-th table holds
    exactly the words whose model scored item [i] (a word whose scoring
    raised is left out), each with its score; the [i]-th guess is a key of
    the [i]-th table that no entry of the table is strictly above, and,
    when no score of the table is a NaN, a key with the greatest score.
    (A NaN is above nothing and below nothing: a table whose first score
    is a NaN has that word for its guess.) *)
Theorem recognize_aligned_argmax models (test_set : SinglesData) w :
  (forall item, In item test_set ->
     exists word logL, scores_item models item word logL) ->
  exists probabilities guesses w',
    recognize models test_set w = (Ok (probabilities, guesses), w') /\
    List.length probabilities = List.length test_set /\
    List.length guesses = List.length test_set /\
    forall i item, nth_error test_set i = Some item ->
      exists p g,
        nth_error probabilities i = Some p /\
        nth_error guesses i = Some g /\
        is_table models item p /\
        is_argmax p g /\
        (no_nan p -> is_greatest p g).
Proof.
  intros Hsome.
  destruct (recognize_items_run models test_set [] test_set [] w eq_refl)
    as (tables & w' & Hrun & _ & Htables).
  simpl in Hrun.
  assert (Hne : Forall (fun p => p <> []) tables).
  { apply Forall_forall. intros p Hp Hnil. subst p.
    apply In_nth_error in Hp. destruct Hp as [i Hi].
    apply Forall2_flip in Htables.
    destruct (Forall2_nth_error _ _ _ Htables i [] Hi) as (item & Hitem & Htab).
    destruct (Hsome item (nth_error_In _ _ Hitem)) as (word & l & Hs).
    apply Htab in Hs. discriminate. }
  destruct (guess_all_ok tables Hne) as (guesses & Hguess & Hargmax).
  exists tables, guesses, w'.
  unfold recognize, num_items, len, bind. rewrite range_0, Hrun.
  unfold lift. rewrite Hguess. split; [reflexivity|].
  pose proof (Forall2_length Htables) as Hlen1.
  pose proof (Forall2_length Hargmax) as Hlen2.
  split; [lia|]. split; [lia|].
  intros i item Hi.
  destruct (Forall2_nth_error _ _ _ Htables i item Hi) as (p & Hp & Htab).
  destruct (Forall2_nth_error _ _ _ Hargmax i p Hp) as (g & Hg & Hmax).
  exists p, g. split; [exact Hp|]. split; [exact Hg|].
  split; [exact Htab|]. split; [exact Hmax|].
  intros Hnan. destruct Hmax as (best & Hbest & Hall).
  exists best. split; [exact Hbest|]. intros word l Hl.
  apply SFleb_not_gt; [exact (Hall word l Hl) | exact (Hnan word l Hl) |
                       exact (Hnan g best Hbest)].
Qed.

End RecognizeTheorems.

(** ** Sweeps over the candidate state counts *)

Section SweepFacts.

Context {H : Hmmlearn}.

Variable cand : Z -> py (Model * float).
Variable better : float -> float -> bool.

(** The loop computes the running best of the outcomes, and never raises. *)
Lemma sweep_run (ns : list Z) :
  forall st w,
    for_each ns (sweep_step cand better) st w
    = (Ok (sweep_best better (sweep_outcomes cand ns w) st),
       sweep_world cand ns w).
Proof.
  induction ns as [|n ns IH]; intros st w; simpl.
  - reflexivity.
  - unfold bind at 1. unfold sweep_step at 1, try_except, bind.
    destruct (cand n w) as [[[m v]|e] w1]; simpl.
    + destruct (better v (fst st)); unfold ret; apply IH.
    + unfold ret; apply IH.
Qed.

Lemma sweep_outcomes_keys (ns : list Z) :
  forall w, map fst (sweep_outcomes cand ns w) = ns.
Proof.
  induction ns as [|n ns IH]; intros w; simpl; [|rewrite IH]; reflexivity.
Qed.

Lemma sweep_outcomes_In (ns : list Z) :
  forall w n r,
    In (n, r) (sweep_outcomes cand ns w) ->
    In n ns /\ exists w0, r = fst (cand n w0).
Proof.
  induction ns as [|n0 ns IH]; intros w n r; simpl; [tauto|].
  intros [Heq|Hin].
  - injection Heq as <- <-. eauto.
  - destruct (IH _ _ _ Hin) as [Hn Hw]. auto.
Qed.

Hypothesis Hstrict : strict better.

Lemma sweep_best_inv (out : list (Z * res (Model * float))) :
  forall bv bm v r,
    sweep_best better out (bv, bm) = (v, r) ->
    (forall u, better u bv = false -> better u v = false) /\
    (forall n m' v', In (n, Ok (m', v')) out -> better v' v = false) /\
    ((r = bm /\ v = bv) \/ exists n m, r = Some m /\ In (n, Ok (m, v)) out).
Proof.
  destruct Hstrict as [Hirr Htr].
  induction out as [|[n [[m0 v0]|e]] out IH]; intros bv bm v r; simpl.
  - intros Heq; injection Heq as <- <-. repeat split; auto. intros n m' v' [].
  - destruct (better v0 bv) eqn:Hb; intros Hrun;
      destruct (IH _ _ _ _ Hrun) as (Hmono & Hall & Hwho).
    + split; [|split].
      * intros u Hu. apply Hmono.
        destruct (better u v0) eqn:Huv; [|reflexivity].
        rewrite (Htr u v0 bv Huv Hb) in Hu. discriminate.
      * intros n' m' v' [Heq|Hin]; [|eauto].
        injection Heq as _ _ <-. apply Hmono, Hirr.
      * right. destruct Hwho as [[-> ->]|(n' & m & -> & Hin)]; eauto 6.
    + split; [exact Hmono|]. split.
      * intros n' m' v' [Heq|Hin]; [|eauto].
        injection Heq as _ _ <-. apply Hmono, Hb.
      * destruct Hwho as [?|(n' & m & -> & Hin)]; eauto 6.
  - intros Hrun. destruct (IH _ _ _ _ Hrun) as (Hmono & Hall & Hwho).
    split; [exact Hmono|]. split.
    + intros n' m' v' [Heq|Hin]; [discriminate | eauto].
    + destruct Hwho as [?|(n' & m & -> & Hin)]; eauto 6.
Qed.

(** What a sweep that starts from [(v0, None)] returns. *)
Lemma sweep_select (ns : list Z) (v0 : float) (w : world) :
  let out := sweep_outcomes cand ns w in
  exists v best,
    for_each ns (sweep_step cand better) (v0, None) w
    = (Ok (v, best), sweep_world cand ns w) /\
    ((forall n r, In (n, r) out -> exists e, r = Raise e) -> best = None) /\
    (forall m, best = Some m ->
       exists n, In (n, Ok (m, v)) out /\
         forall n' m' v', In (n', Ok (m', v')) out -> better v' v = false) /\
    ((exists n m v', In (n, Ok (m, v')) out /\ better v' v0 = true) ->
       best <> None).
Proof.
  intros out. rewrite sweep_run. fold out.
  destruct (sweep_best better out (v0, None)) as [v best] eqn:Hbest.
  exists v, best. split; [reflexivity|].
  destruct (sweep_best_inv out _ _ _ _ Hbest) as (Hmono & Hall & Hwho).
  split; [|split].
  - intros Hfail. destruct Hwho as [[-> _]|(n & m & -> & Hin)]; [reflexivity|].
    destruct (Hfail _ _ Hin) as [e He]. discriminate.
  - intros m ->. destruct Hwho as [[Heq _]|(n & m' & Heq & Hin)]; [discriminate|].
    injection Heq as <-. eauto.
  - intros (n & m & v' & Hin & Hlt) ->.
    destruct Hwho as [[_ ->]|(n' & m' & Heq & _)]; [|discriminate].
    rewrite (Hall _ _ _ Hin) in Hlt. discriminate.
Qed.

End SweepFacts.

(** ** SelectorBIC *)

Section BICFacts.

Context {H : Hmmlearn}.

Lemma BIC_step_sweep (s : ModelSelector) :
  BIC_step s = sweep_step (BIC_candidate s) F64.ltb.
Proof. reflexivity. Qed.

(** The loop's candidate is the specification's. *)
Lemma BIC_candidate_spec (s : ModelSelector) (n : Z) (w : world) :
  fst (BIC_candidate s n w) = BIC_of s (rng w) n.
Proof.
  unfold BIC_candidate, BIC_of, BIC_score, bind, GaussianHMM_fit, model_score,
    lift, ret, and_then.
  destruct (hmm_fit (rng w) n (X s) (lengths s)) as [[m|e] g]; simpl; [|reflexivity].
  destruct (hmm_score m (X s) (lengths s)) as [logL|e]; simpl; [|reflexivity].
  destruct (list_index (X s) 0) as [row|e]; reflexivity.
Qed.

Lemma BIC_of_ok (s : ModelSelector) (g : RNG) (n : Z) (m : Model) (bic : float) :
  BIC_of s g n = Ok (m, bic) ->
  exists logL row,
    fst (hmm_fit g n (X s) (lengths s)) = Ok m /\
    hmm_score m (X s) (lengths s) = Ok logL /\
    list_index (X s) 0 = Ok row /\
    bic = F64.add (F64.mul (F64.of_Z (-2)) logL)
                  (F64.mul (F64.of_Z (n ^ 2 + 2 * n * len row - 1))
                           (np_log (len (X s)))).
Proof.
  unfold BIC_of, and_then.
  destruct (fst (hmm_fit g n (X s) (lengths s))) as [m0|e]; [|discriminate].
  destruct (hmm_score m0 (X s) (lengths s)) as [logL|e] eqn:Hs; [|discriminate].
  destruct (list_index (X s) 0) as [row|e]; [|discriminate].
  intros Heq; injection Heq as <- <-. exists logL, row. auto.
Qed.

(** C2: [SelectorBIC.select] tries every state count of the range in
    order; a candidate counts when it trains, scores and has a first row,
    and its criterion is then [-2 logL + p ln N] with
    [p = n^2 + 2 n d - 1]; any other candidate is skipped.  The selector
    never raises.  It returns [None] when every candidate failed; a model
    it returns is a successful candidate whose BIC no successful
    candidate's BIC is below; and it does return a model as soon as some
    candidate's BIC is below [+inf]. *)
Theorem SelectorBIC_select_minimal (s : ModelSelector) (w : world) :
  let out := BIC_outcomes s w in
  exists best w',
    SelectorBIC_select s w = (Ok best, w') /\
    map fst out = candidates s /\
    (forall n, In n (map fst out) <->
               min_n_components s <= n <= max_n_components s) /\
    (forall n r, In (n, r) out -> exists g, r = BIC_of s g n) /\
    (forall n m bic, In (n, Ok (m, bic)) out ->
       exists g logL row,
         fst (hmm_fit g n (X s) (lengths s)) = Ok m /\
         hmm_score m (X s) (lengths s) = Ok logL /\
         list_index (X s) 0 = Ok row /\
         bic = F64.add (F64.mul (F64.of_Z (-2)) logL)
                       (F64.mul (F64.of_Z (n ^ 2 + 2 * n * len row - 1))
                                (np_log (len (X s))))) /\
    ((forall n r, In (n, r) out -> exists e, r = Raise e) -> best = None) /\
    (forall m, best = Some m ->
       exists n bic,
         In (n, Ok (m, bic)) out /\
         forall n' m' bic', In (n', Ok (m', bic')) out ->
           F64.ltb bic' bic = false) /\
    ((exists n m bic, In (n, Ok (m, bic)) out /\ F64.ltb bic F64.inf = true) ->
       best <> None).
Proof.
  intros out.
  destruct (sweep_select (BIC_candidate s) F64.ltb ltb_strict
              (candidates s) F64.inf w)
    as (v & best & Hrun & Hnone & Hmin & Hsome).
  fold (BIC_outcomes s w) in Hnone, Hmin, Hsome. fold out in Hnone, Hmin, Hsome.
  assert (Hspec : forall n r, In (n, r) out -> exists g, r = BIC_of s g n).
  { intros n r Hin.
    destruct (sweep_outcomes_In _ _ _ _ _ Hin) as [_ [w0 ->]].
    exists (rng w0). apply BIC_candidate_spec. }
  exists best, (sweep_world (BIC_candidate s) (candidates s) w).
  split; [|split; [|split; [|split; [|split; [|split; [|split]]]]]].
  - unfold SelectorBIC_select, bind. rewrite BIC_step_sweep, Hrun. reflexivity.
  - apply sweep_outcomes_keys.
  - intros n. unfold out, BIC_outcomes. rewrite sweep_outcomes_keys.
    apply candidates_In.
  - exact Hspec.
  - intros n m bic Hin. destruct (Hspec _ _ Hin) as [g Hg].
    exists g. apply BIC_of_ok. symmetry; exact Hg.
  - exact Hnone.
  - intros m Hm. destruct (Hmin m Hm) as (n & Hin & Hall). eauto.
  - exact Hsome.
Qed.

End BICFacts.

(** ** SelectorDIC *)

Section DICFacts.

Context {H : Hmmlearn}.

Lemma DIC_step_sweep (s : ModelSelector) :
  DIC_step s = sweep_step (DIC_candidate s) F64.gtb.
Proof. reflexivity. Qed.

(** The inner loop adds up, from the left, the scores on the other words. *)
Lemma DIC_inner_loop (s : ModelSelector) (m : Model) (keys : list string) :
  forall acc w,
    fst (for_each keys (DIC_other s m) acc w)
    = and_then
        (other_scores s m
           (filter (fun k => negb (String.eqb k (this_word s))) keys))
        (fun logLs => Ok (fold_left num_add logLs acc)).
Proof.
  induction keys as [|k keys IH]; intros acc w; simpl; [reflexivity|].
  unfold bind at 1. unfold DIC_other at 1.
  destruct (String.eqb k (this_word s)); simpl.
  - apply IH.
  - unfold bind, lift, model_score, ret, and_then at 1 2.
    destruct (dict_get (hwords s) k) as [[oX ol]|e]; simpl; [|reflexivity].
    destruct (hmm_score m oX ol) as [l|e]; simpl; [|reflexivity].
    rewrite IH. unfold and_then.
    destruct (other_scores s m _); reflexivity.
Qed.

Lemma DIC_candidate_spec (s : ModelSelector) (n : Z) (w : world) :
  fst (DIC_candidate s n w) = DIC_of s (rng w) n.
Proof.
  unfold DIC_candidate, DIC_of, bind at 1, GaussianHMM_fit.
  destruct (hmm_fit (rng w) n (X s) (lengths s)) as [[m|e] g]; simpl;
    [|reflexivity].
  unfold bind at 1, model_score.
  destruct (hmm_score m (X s) (lengths s)) as [logL|e]; simpl; [|reflexivity].
  unfold bind at 1.
  match goal with
  | |- context [for_each ?ks ?b ?a ?w0] =>
      pose proof (DIC_inner_loop s m ks a w0) as Hloop;
      destruct (for_each ks b a w0) as [[sum|e0] w1]
  end; simpl in Hloop; fold (DIC_others s) in Hloop.
  - destruct (other_scores s m (DIC_others s)) as [ls|e0]; simpl in Hloop;
      [|discriminate].
    injection Hloop as ->. simpl.
    unfold bind, lift, ret. destruct (num_truediv _ _); reflexivity.
  - destruct (other_scores s m (DIC_others s)) as [ls|e1]; simpl in Hloop;
      [discriminate|].
    injection Hloop as ->. reflexivity.
Qed.

Lemma other_scores_ok (s : ModelSelector) (m : Model) (ws : list string) :
  forall logLs, other_scores s m ws = Ok logLs ->
  Forall2 (scores_other s m) ws logLs.
Proof.
  induction ws as [|k ws IH]; intros logLs; simpl.
  - intros Heq; injection Heq as <-. constructor.
  - unfold and_then.
    destruct (dict_get (hwords s) k) as [[oX ol]|e] eqn:Hget; [|discriminate].
    simpl. destruct (hmm_score m oX ol) as [l|e] eqn:Hs; [|discriminate].
    destruct (other_scores s m ws) as [ls|e]; [|discriminate].
    intros Heq; injection Heq as <-. constructor; [|auto].
    exists oX, ol. auto.
Qed.

Lemma num_truediv_ok (a : pynum) (k : Z) (q : float) :
  num_truediv a k = Ok q -> q = F64.div (to_float a) (F64.of_Z k).
Proof.
  destruct a as [z|f]; simpl; [destruct (k =? 0)|]; congruence.
Qed.

Lemma DIC_of_ok (s : ModelSelector) (g : RNG) (n : Z) (m : Model) (dic : float) :
  DIC_of s g n = Ok (m, dic) ->
  exists logL logLs,
    fst (hmm_fit g n (X s) (lengths s)) = Ok m /\
    hmm_score m (X s) (lengths s) = Ok logL /\
    Forall2 (scores_other s m) (DIC_others s) logLs /\
    dic = F64.sub logL
            (F64.div (to_float (fold_left num_add logLs (PyInt 0)))
                     (F64.of_Z (len (hwords s) - 1))).
Proof.
  unfold DIC_of, and_then.
  destruct (fst (hmm_fit g n (X s) (lengths s))) as [m0|e]; [|discriminate].
  destruct (hmm_score m0 (X s) (lengths s)) as [logL|e] eqn:Hs; [|discriminate].
  destruct (other_scores s m0 (DIC_others s)) as [ls|e] eqn:Hls; [|discriminate].
  destruct (num_truediv _ _) as [q|e] eqn:Hq; [|discriminate].
  intros Heq; injection Heq as <- <-. exists logL, ls.
  split; [reflexivity|]. split; [exact Hs|].
  split; [apply other_scores_ok; exact Hls|].
  f_equal. apply num_truediv_ok. exact Hq.
Qed.

(** C3: [SelectorDIC.select] tries every state count of the range in
    order; a candidate counts when it trains, scores on its own word and on
    every other word of [self.words], and the division does not raise; its
    criterion is then [logL - sum / (M - 1)], the sum taken from the left
    over the other words in the dict's order.  Any other candidate is
    skipped, and the selector never raises.  It returns [None] when every
    candidate failed; a model it returns is a successful candidate whose
    DIC no successful candidate's DIC is above; and it does return a model
    as soon as some candidate's DIC is above [-inf]. *)
Theorem SelectorDIC_select_maximal (s : ModelSelector) (w : world) :
  let out := DIC_outcomes s w in
  exists best w',
    SelectorDIC_select s w = (Ok best, w') /\
    map fst out = candidates s /\
    (forall n, In n (map fst out) <->
               min_n_components s <= n <= max_n_components s) /\
    (forall n r, In (n, r) out -> exists g, r = DIC_of s g n) /\
    (forall n m dic, In (n, Ok (m, dic)) out ->
       exists g logL logLs,
         fst (hmm_fit g n (X s) (lengths s)) = Ok m /\
         hmm_score m (X s) (lengths s) = Ok logL /\
         Forall2 (scores_other s m) (DIC_others s) logLs /\
         dic = F64.sub logL
                 (F64.div (to_float (fold_left num_add logLs (PyInt 0)))
                          (F64.of_Z (len (hwords s) - 1)))) /\
    ((forall n r, In (n, r) out -> exists e, r = Raise e) -> best = None) /\
    (forall m, best = Some m ->
       exists n dic,
         In (n, Ok (m, dic)) out /\
         forall n' m' dic', In (n', Ok (m', dic')) out ->
           F64.gtb dic' dic = false) /\
    ((exists n m dic,
        In (n, Ok (m, dic)) out /\ F64.gtb dic F64.neg_inf = true) ->
       best <> None).
Proof.
  intros out.
  destruct (sweep_select (DIC_candidate s) F64.gtb gtb_strict
              (candidates s) F64.neg_inf w)
    as (v & best & Hrun & Hnone & Hmax & Hsome).
  fold (DIC_outcomes s w) in Hnone, Hmax, Hsome. fold out in Hnone, Hmax, Hsome.
  assert (Hspec : forall n r, In (n, r) out -> exists g, r = DIC_of s g n).
  { intros n r Hin.
    destruct (sweep_outcomes_In _ _ _ _ _ Hin) as [_ [w0 ->]].
    exists (rng w0). apply DIC_candidate_spec. }
  exists best, (sweep_world (DIC_candidate s) (candidates s) w).
  split; [|split; [|split; [|split; [|split; [|split; [|split]]]]]].
  - unfold SelectorDIC_select, bind. rewrite DIC_step_sweep, Hrun. reflexivity.
  - apply sweep_outcomes_keys.
  - intros n. unfold out, DIC_outcomes. rewrite sweep_outcomes_keys.
    apply candidates_In.
  - exact Hspec.
  - intros n m dic Hin. destruct (Hspec _ _ Hin) as [g Hg].
    exists g. apply DIC_of_ok. symmetry; exact Hg.
  - exact Hnone.
  - intros m Hm. destruct (Hmax m Hm) as (n & Hin & Hall). eauto.
  - exact Hsome.
Qed.

(** With the target word alone in [self.words] and one entry in
    [self.hwords], a candidate that trains and scores ends in the division
    of the int [0] by the int [0]. *)
Lemma DIC_of_single_word (s : ModelSelector) (g : RNG) (n : Z) :
  dict_keys (words s) = [this_word s] ->
  len (hwords s) = 1 ->
  exists e, DIC_of s g n = Raise e /\
    (is_ok (fst (hmm_fit g n (X s) (lengths s))) = true ->
     (forall m, fst (hmm_fit g n (X s) (lengths s)) = Ok m ->
        is_ok (hmm_score m (X s) (lengths s)) = true) ->
     e = ZeroDivisionError).
Proof.
  intros Hwords HM. unfold DIC_of, DIC_others, and_then.
  rewrite Hwords, HM. simpl. rewrite String.eqb_refl. simpl.
  destruct (fst (hmm_fit g n (X s) (lengths s))) as [m|e]; simpl.
  - destruct (hmm_score m (X s) (lengths s)) as [l|e] eqn:Hs; simpl.
    + eauto.
    + exists e; split; [reflexivity|]. intros _ Hsc.
      specialize (Hsc m eq_refl). rewrite Hs in Hsc. discriminate.
  - exists e; split; [reflexivity|]. discriminate.
Qed.

(** A selector built by [__init__] finds its own word in both dicts. *)
Lemma ModelSelector_init_this_word wseqs wXl word nc lo hi seed vb s :
  ModelSelector_init wseqs wXl word nc lo hi seed vb = Ok s ->
  dict_get (words s) (this_word s) = Ok (sequences s) /\
  dict_get (hwords s) (this_word s) = Ok (X s, lengths s).
Proof.
  unfold ModelSelector_init.
  destruct (dict_get wseqs word) as [seqs|e] eqn:Hseqs; [|discriminate].
  destruct (dict_get wXl word) as [[X0 l0]|e] eqn:HXl; [|discriminate].
  intros Heq; injection Heq as <-. simpl. auto.
Qed.

Lemma dict_get_single {V} (d : dict V) (k k' : string) (v : V) :
  len d = 1 -> dict_get d k = Ok v -> k' <> k -> dict_get d k' = Raise KeyError.
Proof.
  destruct d as [|[k0 v0] [|kv d]]; unfold len; simpl; try lia.
  intros _. destruct (String.eqb_spec k k0) as [->|]; [|discriminate].
  intros _ Hne. destruct (String.eqb_spec k' k0); [congruence | reflexivity].
Qed.

(** With [M = 1] no candidate of a selector built by [__init__] ever
    succeeds, whatever [self.words] holds: the first other word is not a
    key of [self.hwords], and with no other word the division is [0/0].
    In particular no float is ever divided by [M - 1 = 0]. *)
Lemma DIC_of_single_entry wseqs wXl word nc lo hi seed vb s (g : RNG) (n : Z) :
  ModelSelector_init wseqs wXl word nc lo hi seed vb = Ok s ->
  len (hwords s) = 1 ->
  exists e, DIC_of s g n = Raise e.
Proof.
  intros Hinit HM.
  destruct (ModelSelector_init_this_word _ _ _ _ _ _ _ _ _ Hinit) as [_ Hthis].
  unfold DIC_of, and_then.
  destruct (fst (hmm_fit g n (X s) (lengths s))) as [m|e]; [|eauto].
  destruct (hmm_score m (X s) (lengths s)) as [l|e]; [|eauto].
  unfold DIC_others.
  destruct (filter _ (dict_keys (words s))) as [|k ks] eqn:Hothers; simpl.
  - rewrite HM. simpl. eauto.
  - assert (Hk : In k (filter (fun k => negb (String.eqb k (this_word s)))
                         (dict_keys (words s))))
      by (rewrite Hothers; left; reflexivity).
    apply filter_In in Hk. destruct Hk as [_ Hk].
    destruct (String.eqb_spec k (this_word s)) as [|Hne]; [discriminate|].
    unfold and_then.
    rewrite (dict_get_single _ _ _ _ HM Hthis Hne). eauto.
Qed.

(** C10: when [self.words] holds the target word alone and the vocabulary
    size [M = len(self.hwords)] is 1, [SelectorDIC.select] returns [None]
    whatever the range: no candidate succeeds, and one that trains and
    scores fails on the division by [M - 1 = 0]. *)
Theorem SelectorDIC_single_word_none (s : ModelSelector) (w : world) :
  dict_keys (words s) = [this_word s] ->
  len (hwords s) = 1 ->
  (exists w', SelectorDIC_select s w = (Ok None, w')) /\
  (forall n r, In (n, r) (DIC_outcomes s w) -> exists e, r = Raise e) /\
  (forall g n m logL,
     fst (hmm_fit g n (X s) (lengths s)) = Ok m ->
     hmm_score m (X s) (lengths s) = Ok logL ->
     DIC_of s g n = Raise ZeroDivisionError).
Proof.
  intros Hwords HM.
  assert (Hfail : forall n r, In (n, r) (DIC_outcomes s w) -> exists e, r = Raise e).
  { intros n r Hin.
    destruct (sweep_outcomes_In _ _ _ _ _ Hin) as [_ [w0 ->]].
    rewrite DIC_candidate_spec.
    destruct (DIC_of_single_word s (rng w0) n Hwords HM) as (e & -> & _). eauto. }
  split; [|split].
  - destruct (sweep_select (DIC_candidate s) F64.gtb gtb_strict
                (candidates s) F64.neg_inf w)
      as (v & best & Hrun & Hnone & _).
    rewrite (Hnone Hfail) in Hrun.
    eexists. unfold SelectorDIC_select, bind.
    rewrite DIC_step_sweep, Hrun. reflexivity.
  - exact Hfail.
  - intros g n m logL Hfit Hscore.
    destruct (DIC_of_single_word s g n Hwords HM) as (e & -> & He).
    rewrite He; [reflexivity | rewrite Hfit; reflexivity |].
    intros m' Hm'. replace m' with m by congruence. rewrite Hscore; reflexivity.
Qed.

End DICFacts.

(** ** SelectorConstant *)

Section ConstantFacts.

Context {H : Hmmlearn}.

(** C6: [SelectorConstant.select] makes exactly one call into hmmlearn,
    the training of a model with [n_constant] states on the word's data
    (seeded with [random_state]), and no scoring; it returns the trained
    model when the training succeeds and [None] exactly when it raises. *)
Theorem SelectorConstant_select_once (s : ModelSelector) (w : world) :
  let trained :=
    fst (hmm_fit (RandomState (random_state s)) (n_constant s)
                 (X s) (lengths s)) in
  exists best w',
    SelectorConstant_select s w = (Ok best, w') /\
    calls w' = calls w ++
      [FitCall (Some (random_state s)) (n_constant s) (X s) (lengths s)] /\
    rng w' = rng w /\
    (forall m, trained = Ok m <-> best = Some m) /\
    ((exists e, trained = Raise e) <-> best = None).
Proof.
  intros trained. unfold SelectorConstant_select, base_model, try_except, bind,
    GaussianHMM_fit, ret. fold trained.
  destruct trained as [m|e].
  - eexists _, {| rng := _; calls := _ |}. split; [reflexivity|].
    repeat split; try congruence; try discriminate.
    intros [e He]; discriminate.
  - eexists _, {| rng := _; calls := _ |}. split; [reflexivity|].
    repeat split; try congruence; try discriminate. eauto.
Qed.

(** The result of [SelectorConstant.select] does not depend on the state
    of the global generator, and the call leaves that generator alone. *)
Lemma SelectorConstant_select_repeatable (s : ModelSelector) (w1 w2 : world) :
  fst (SelectorConstant_select s w1) = fst (SelectorConstant_select s w2) /\
  rng (snd (SelectorConstant_select s w1)) = rng w1.
Proof.
  unfold SelectorConstant_select, base_model, try_except, bind,
    GaussianHMM_fit, ret.
  destruct (fst (hmm_fit _ _ _ _)); split; reflexivity.
Qed.

End ConstantFacts.

(** ** SelectorCV *)

Section CVFacts.

Context {H : Hmmlearn}.

(** With one sequence the partition into [min(1, 3) = 1] folds is refused
    before anything is trained. *)
Lemma CV_average_single (s : ModelSelector) (n : Z) (w : world) :
  List.length (sequences s) = 1%nat ->
  CV_average s n w = (Raise ValueError, w).
Proof.
  intros Hlen. unfold CV_average, len. rewrite Hlen. reflexivity.
Qed.

(** A turn of the loop never raises; it leaves [best_model] alone or sets
    it to a model trained on the word's whole data. *)
Lemma CV_step_run (s : ModelSelector) (n : Z) (st : float * option Model)
    (w : world) :
  exists st' w',
    CV_step s n st w = (Ok st', w') /\
    (snd st' = snd st \/
     exists g m,
       fst (hmm_fit g n (X s) (lengths s)) = Ok m /\ snd st' = Some m).
Proof.
  unfold CV_step, try_except, bind.
  destruct (CV_average s n w) as [[avg|e] w1]; [|unfold ret; eauto].
  destruct (F64.gtb avg (fst st)); [|unfold ret; eauto].
  unfold GaussianHMM_fit.
  destruct (hmm_fit (rng w1) n (X s) (lengths s)) as [[m|e] g] eqn:Hfit;
    unfold ret; simpl.
  - eexists _, _. split; [reflexivity|]. right. exists (rng w1), m.
    rewrite Hfit. auto.
  - eexists _, _. split; [reflexivity|]. left; reflexivity.
Qed.

Lemma CV_sweep_run (s : ModelSelector) (ns : list Z) :
  forall st w,
  exists st' w',
    for_each ns (CV_step s) st w = (Ok st', w') /\
    (snd st' = snd st \/
     exists n g m,
       In n ns /\
       fst (hmm_fit g n (X s) (lengths s)) = Ok m /\ snd st' = Some m).
Proof.
  induction ns as [|n ns IH]; intros st w; simpl.
  - unfold ret; eauto.
  - unfold bind.
    destruct (CV_step_run s n st w) as (st1 & w1 & -> & Hst1).
    destruct (IH st1 w1) as (st' & w' & -> & Hst').
    exists st', w'. split; [reflexivity|].
    destruct Hst' as [Heq|(n' & g & m & Hin & Hfit & Hm)].
    + rewrite Heq. destruct Hst1 as [?|(g & m & Hfit & Hm)]; [auto|].
      right. exists n, g, m. auto.
    + right. exists n', g, m. auto.
Qed.

(** Whatever [SelectorCV.select] returns was trained on the word's whole
    concatenated data, at a state count of the range; it never raises. *)
Lemma SelectorCV_select_whole_data (s : ModelSelector) (w : world) :
  exists best w',
    SelectorCV_select s w = (Ok best, w') /\
    forall m, best = Some m ->
      exists n g,
        In n (candidates s) /\
        fst (hmm_fit g n (X s) (lengths s)) = Ok m.
Proof.
  destruct (CV_sweep_run s (candidates s) (F64.neg_inf, None) w)
    as (st' & w' & Hrun & Hst').
  exists (snd st'), w'. unfold SelectorCV_select, bind. rewrite Hrun.
  split; [reflexivity|]. intros m Hm.
  destruct Hst' as [Heq|(n & g & m' & Hin & Hfit & Heq)];
    rewrite Heq in Hm; [discriminate|].
  injection Hm as <-. eauto.
Qed.

(** The sweep against its trace: as long as no training on the whole
    data raises, the running best is the greatest average so far and the
    model kept is the one trained on the whole data at that candidate. *)
Lemma CV_sweep_inv (s : ModelSelector) (ns : list Z) :
  forall bv bm w,
    (forall n avg e, ~ In (n, Ok avg, Some (Raise e)) (CV_trace s ns (bv, bm) w)) ->
    exists v r w',
      for_each ns (CV_step s) (bv, bm) w = (Ok (v, r), w') /\
      (forall u, F64.gtb u bv = false -> F64.gtb u v = false) /\
      (forall n avg t, In (n, Ok avg, t) (CV_trace s ns (bv, bm) w) ->
         F64.gtb avg v = false) /\
      ((r = bm /\ v = bv) \/
       exists n m, r = Some m /\
         In (n, Ok v, Some (Ok m)) (CV_trace s ns (bv, bm) w)).
Proof.
  destruct gtb_strict as [Hirr Htr].
  induction ns as [|n ns IH]; intros bv bm w Hok;
    cbn [CV_trace for_each fst snd] in *.
  - exists bv, bm, w. repeat split; auto. intros n avg t [].
  - unfold bind at 1. unfold CV_step at 1, try_except, bind.
    destruct (CV_average s n w) as [[avg|e] w1]; cbn [fst snd] in *.
    + destruct (F64.gtb avg bv) eqn:Hgt.
      * destruct (GaussianHMM_fit None n (X s) (lengths s) w1)
          as [[m|e] w2]; unfold ret; cbn [fst snd] in *.
        -- destruct (IH avg (Some m) w2) as (v & r & w' & -> & Hmono & Hall & Hwho).
           { intros n' avg' e' Hin. apply (Hok n' avg' e'). right; exact Hin. }
           exists v, r, w'. split; [reflexivity|]. split; [|split].
           ++ intros u Hu. apply Hmono.
              destruct (F64.gtb u avg) eqn:Hua; [|reflexivity].
              rewrite (Htr u avg bv Hua Hgt) in Hu. discriminate.
           ++ intros n' avg' t [Heq|Hin]; [|eauto].
              injection Heq as _ <- _. apply Hmono, Hirr.
           ++ right. destruct Hwho as [[-> ->]|(n' & m' & -> & Hin)].
              ** exists n, m. split; [reflexivity | left; reflexivity].
              ** exists n', m'. split; [reflexivity | right; exact Hin].
        -- exfalso. apply (Hok n avg e). left; reflexivity.
      * unfold ret.
        destruct (IH bv bm w1) as (v & r & w' & -> & Hmono & Hall & Hwho).
        { intros n' avg' e' Hin. apply (Hok n' avg' e'). right; exact Hin. }
        exists v, r, w'. split; [reflexivity|]. split; [exact Hmono|]. split.
        -- intros n' avg' t [Heq|Hin]; [|eauto].
           injection Heq as _ <- _. apply Hmono, Hgt.
        -- destruct Hwho as [?|(n' & m' & -> & Hin)]; [auto|].
           right. exists n', m'. split; [reflexivity | right; exact Hin].
    + unfold ret.
      destruct (IH bv bm w1) as (v & r & w' & -> & Hmono & Hall & Hwho).
      { intros n' avg' e' Hin. apply (Hok n' avg' e'). right; exact Hin. }
      exists v, r, w'. split; [reflexivity|]. split; [exact Hmono|]. split.
      * intros n' avg' t [Heq|Hin]; [discriminate | eauto].
      * destruct Hwho as [?|(n' & m' & -> & Hin)]; [auto|].
        right. exists n', m'. split; [reflexivity | right; exact Hin].
Qed.

(** As long as no training on the whole data raises, [SelectorCV.select]
    returns the model trained on the whole data at a candidate whose
    average held-out log-likelihood no candidate's average is above, and
    it returns one as soon as some average is above [-inf]. *)
Lemma SelectorCV_select_winning (s : ModelSelector) (w : world) :
  (forall n avg e, ~ In (n, Ok avg, Some (Raise e)) (CV_outcomes s w)) ->
  exists best w',
    SelectorCV_select s w = (Ok best, w') /\
    (forall m, best = Some m ->
       exists n avg,
         In (n, Ok avg, Some (Ok m)) (CV_outcomes s w) /\
         forall n' avg' t, In (n', Ok avg', t) (CV_outcomes s w) ->
           F64.gtb avg' avg = false) /\
    ((exists n avg t,
        In (n, Ok avg, t) (CV_outcomes s w) /\
        F64.gtb avg F64.neg_inf = true) -> best <> None).
Proof.
  intros Hok.
  destruct (CV_sweep_inv s (candidates s) F64.neg_inf None w Hok)
    as (v & r & w' & Hrun & Hmono & Hall & Hwho).
  exists r, w'. unfold SelectorCV_select, bind. rewrite Hrun.
  split; [reflexivity|]. fold (CV_outcomes s w) in Hall, Hwho. split.
  - intros m ->. destruct Hwho as [[Heq _]|(n & m' & Heq & Hin)]; [discriminate|].
    injection Heq as <-. eauto.
  - intros (n & avg & t & Hin & Hgt) ->.
    destruct Hwho as [[_ ->]|(n' & m' & Heq & _)]; [|discriminate].
    rewrite (Hall _ _ _ Hin) in Hgt. discriminate.
Qed.

(** C9: a word with exactly one sequence gets no model from
    [SelectorCV.select], whatever the range: for every candidate the
    partition into one fold raises inside the handler, before any training,
    so the loop leaves [best_model] at [None] and the world as it was. *)
Theorem SelectorCV_single_sequence_none (s : ModelSelector) (w : world) :
  List.length (sequences s) = 1%nat ->
  SelectorCV_select s w = (Ok None, w) /\
  forall n w0, CV_average s n w0 = (Raise ValueError, w0).
Proof.
  intros Hlen. split; [|intros; apply CV_average_single; exact Hlen].
  unfold SelectorCV_select, bind.
  assert (Hloop : forall ns st, for_each ns (CV_step s) st w = (Ok st, w)).
  { induction ns as [|n ns IH]; intros st; simpl; [reflexivity|].
    unfold bind, CV_step at 1, try_except, bind.
    rewrite (CV_average_single s n w Hlen). unfold ret. apply IH. }
  rewrite Hloop. reflexivity.
Qed.

End CVFacts.

(** ** Where failures are caught *)

Section RecoveryFacts.

Context {H : Hmmlearn}.

Lemma sweep_step_skip cand better (n : Z) (st : float * option Model)
    (w w' : world) (e : exn) :
  cand n w = (Raise e, w') ->
  sweep_step cand better n st w = (Ok st, w').
Proof.
  intros Hc. unfold sweep_step, try_except, bind. rewrite Hc. reflexivity.
Qed.

Lemma CV_step_skip (s : ModelSelector) (n : Z) (st : float * option Model)
    (w w' : world) (e : exn) :
  CV_average s n w = (Raise e, w') ->
  CV_step s n st w = (Ok st, w').
Proof.
  intros Hc. unfold CV_step, try_except, bind. rewrite Hc. reflexivity.
Qed.

(** A fold that raises ends the candidate: the folds before it are lost
    and the folds after it are not run. *)
Lemma CV_average_fold_raises (s : ModelSelector) (n : Z)
    (before after : list (list nat * list nat)) (fold : list nat * list nat)
    (acc : pynum) (w w1 w2 : world) (e : exn) :
  CV_folds s = Ok (before ++ fold :: after) ->
  for_each before (CV_fold s n) (PyInt 0) w = (Ok acc, w1) ->
  CV_fold s n fold acc w1 = (Raise e, w2) ->
  CV_average s n w = (Raise e, w2).
Proof.
  unfold CV_folds, CV_average, bind, lift.
  destruct (KFold _) as [k|e0]; [|discriminate].
  intros -> Hbefore Hfold.
  rewrite for_each_app, Hbefore. simpl. unfold bind. rewrite Hfold. reflexivity.
Qed.

(** C8, as amended: a training or scoring failure is caught per candidate
    state count in the BIC, DIC and cross-validation sweeps, and per (item,
    word) pair while the likelihood tables are built.  A candidate that
    fails while it is evaluated leaves the running best as it was and the
    sweep goes on with the next one; in cross-validation a failure on one
    fold ends the whole candidate, the other folds' scores with it, and a
    failure of the training on the whole data is caught by the same
    handler: the model kept so far stays and the sweep goes on.  No
    selector raises, and the pass that builds the tables raises for no
    item. *)
Theorem failures_caught_per_candidate :
  (forall s n ns st w e w',
     BIC_candidate s n w = (Raise e, w') ->
     for_each (n :: ns) (BIC_step s) st w = for_each ns (BIC_step s) st w') /\
  (forall s n ns st w e w',
     DIC_candidate s n w = (Raise e, w') ->
     for_each (n :: ns) (DIC_step s) st w = for_each ns (DIC_step s) st w') /\
  (forall s n ns st w e w',
     CV_average s n w = (Raise e, w') ->
     for_each (n :: ns) (CV_step s) st w = for_each ns (CV_step s) st w') /\
  (forall s n before fold after acc w w1 e w2,
     CV_folds s = Ok (before ++ fold :: after) ->
     for_each before (CV_fold s n) (PyInt 0) w = (Ok acc, w1) ->
     CV_fold s n fold acc w1 = (Raise e, w2) ->
     CV_average s n w = (Raise e, w2)) /\
  (forall s n ns st w logL_avg w1 e w2,
     CV_average s n w = (Ok logL_avg, w1) ->
     F64.gtb logL_avg (fst st) = true ->
     GaussianHMM_fit None n (X s) (lengths s) w1 = (Raise e, w2) ->
     exists best_cv,
       for_each (n :: ns) (CV_step s) st w
       = for_each ns (CV_step s) (best_cv, snd st) w2) /\
  (forall s w, exists best w', SelectorBIC_select s w = (Ok best, w')) /\
  (forall s w, exists best w', SelectorDIC_select s w = (Ok best, w')) /\
  (forall s w, exists best w', SelectorCV_select s w = (Ok best, w')) /\
  (forall models X length word logLs w,
     (forall logL, ~ scores_item models (X, length) word logL) ->
     exists w', recognize_word models X length word logLs w = (Ok logLs, w')) /\
  (forall models (test_set : SinglesData) w,
     exists tables w',
       for_each (range 0 (num_items test_set))
                (recognize_item models test_set) [] w = (Ok tables, w') /\
       Forall2 (is_table models) test_set tables).
Proof.
  repeat match goal with |- _ /\ _ => split end.
  - intros s n ns st w e w' Hc. apply for_each_skip.
    rewrite BIC_step_sweep. eapply sweep_step_skip; exact Hc.
  - intros s n ns st w e w' Hc. apply for_each_skip.
    rewrite DIC_step_sweep. eapply sweep_step_skip; exact Hc.
  - intros s n ns st w e w' Hc. apply for_each_skip.
    eapply CV_step_skip; exact Hc.
  - intros. eapply CV_average_fold_raises; eassumption.
  - intros s n ns st w avg w1 e w2 Havg Hgt Hfit. exists avg.
    simpl. unfold bind at 1. unfold CV_step at 1, try_except, bind.
    rewrite Havg, Hgt, Hfit. reflexivity.
  - intros s w. unfold SelectorBIC_select, bind.
    rewrite BIC_step_sweep, sweep_run. unfold ret. eauto.
  - intros s w. unfold SelectorDIC_select, bind.
    rewrite DIC_step_sweep, sweep_run. unfold ret. eauto.
  - intros s w. unfold SelectorCV_select, bind.
    destruct (CV_sweep_run s (candidates s) (F64.neg_inf, None) w)
      as (st' & w' & -> & _). unfold ret. eauto.
  - intros models X0 length word logLs w Hnone.
    destruct (recognize_word_run models X0 length word logLs w)
      as (w' & _ & [(l & Hs & _)|(_ & Hrun)]); [|eauto].
    exfalso. exact (Hnone l Hs).
  - intros models test_set w.
    destruct (recognize_items_run models test_set [] test_set [] w eq_refl)
      as (tables & w' & Hrun & _ & Htables).
    exists tables, w'. unfold num_items, len. rewrite range_0. auto.
Qed.

End RecoveryFacts.

(** * The code run on the small trainer *)

(** A run written as its result and the world it leaves. *)
Lemma run_eta {A B} (p : A * B) (a : A) : fst p = a -> p = (a, snd p).
Proof. intros <-. destruct p; reflexivity. Qed.

Module Examples.

Import Toy.

Example selector_init :
  ModelSelector_init all_word_sequences all_word_Xlengths "CAT" 3 2 4 14 false
  = Ok (selector "CAT" 2 4).
Proof. reflexivity. Qed.

Example selector_default :
  ModelSelector_default all_word_sequences all_word_Xlengths "CAT"
  = Ok (selector "CAT" 2 10).
Proof. reflexivity. Qed.

Example selector_unknown_word :
  ModelSelector_default all_word_sequences all_word_Xlengths "FISH"
  = Raise KeyError.
Proof. reflexivity. Qed.

Example KFold_5_3 :
  KFold_split 3 5
  = Ok [([2; 3; 4], [0; 1]); ([0; 1; 4], [2; 3]); ([0; 1; 2; 3], [4])]%nat.
Proof. reflexivity. Qed.

Example combine_cat :
  combine_sequences [0; 2]%nat [frames 1; frames 2; frames 3]
  = Ok (frames 4, [1; 3]%nat).
Proof. reflexivity. Qed.

(** *** SelectorConstant *)

Example constant_run :
  @SelectorConstant_select bic_trainer (selector "CAT" 2 4) (start bic_trainer 0)
  = (Ok (Some {| t_states := 3; t_init := 14; t_rows := 6 |}),
     @Build_world bic_trainer 0
       [@FitCall bic_trainer (Some 14) 3 (frames 6) [1; 2; 3]%nat]).
Proof. reflexivity. Qed.

(** *** SelectorBIC: 6 rows of one feature, [p = 7, 14, 23] for 2, 3 and 4
    states; the likelihoods -80, -60, -59 give the criteria
    [160 + 7 ln 6], [120 + 14 ln 6], [118 + 23 ln 6], smallest at 3. *)

Example bic_run :
  fst (@SelectorBIC_select bic_trainer (selector "CAT" 2 4) (start bic_trainer 0))
  = Ok (Some {| t_states := 3; t_init := 1; t_rows := 6 |}).
Proof. vm_compute. reflexivity. Qed.

Example bic_values :
  map (fun o => (fst o, and_then (snd o) (fun mv => Ok (snd mv))))
      (@BIC_outcomes bic_trainer (selector "CAT" 2 4) (start bic_trainer 0))
  = [(2, Ok (F64.add (F64.of_Z 160) (F64.mul (F64.of_Z 7) (toy_log 6))));
     (3, Ok (F64.add (F64.of_Z 120) (F64.mul (F64.of_Z 14) (toy_log 6))));
     (4, Ok (F64.add (F64.of_Z 118) (F64.mul (F64.of_Z 23) (toy_log 6))))].
Proof. vm_compute. reflexivity. Qed.

(** The specification's scenario: the criteria 150.2, 148.9 and 152.0 for
    2, 3 and 4 states select the model with 3 states. *)
Example bic_scenario :
  @sweep_best bic_trainer F64.ltb
    [(2, Ok (cat_model, F64.div (F64.of_Z 1502) (F64.of_Z 10)));
     (3, Ok (dog_model, F64.div (F64.of_Z 1489) (F64.of_Z 10)));
     (4, Ok (bird_model, F64.of_Z 152))]
    (F64.inf, None)
  = (F64.div (F64.of_Z 1489) (F64.of_Z 10), Some dog_model).
Proof. vm_compute. reflexivity. Qed.

(** *** SelectorDIC: CAT against DOG and BIRD, [M = 3]; the criteria are
    [-80 + 220/2 = 30], [-60 + 150/2 = 15] and [-59 + 320/2 = 101]. *)

Example dic_run :
  fst (@SelectorDIC_select dic_trainer (selector "CAT" 2 4) (start dic_trainer 0))
  = Ok (Some {| t_states := 4; t_init := 2; t_rows := 6 |}).
Proof. vm_compute. reflexivity. Qed.

Example dic_values :
  map (fun o => (fst o, and_then (snd o) (fun mv => Ok (snd mv))))
      (@DIC_outcomes dic_trainer (selector "CAT" 2 4) (start dic_trainer 0))
  = [(2, Ok (F64.of_Z 30)); (3, Ok (F64.of_Z 15)); (4, Ok (F64.of_Z 101))].
Proof. vm_compute. reflexivity. Qed.

(** C10, run: a vocabulary of the one word CAT. *)
Lemma SelectorDIC_single_word_none_witness :
  dict_keys (words lone_selector) = [this_word lone_selector] /\
  len (hwords lone_selector) = 1 /\
  (exists w',
     @SelectorDIC_select dic_trainer lone_selector (start dic_trainer 0)
     = (Ok None, w')) /\
  (forall n r,
     In (n, r) (@DIC_outcomes dic_trainer lone_selector (start dic_trainer 0)) ->
     exists e, r = Raise e) /\
  (forall g n m logL,
     fst (@hmm_fit dic_trainer g n (X lone_selector) (lengths lone_selector))
     = Ok m ->
     @hmm_score dic_trainer m (X lone_selector) (lengths lone_selector)
     = Ok logL ->
     @DIC_of dic_trainer lone_selector g n = Raise ZeroDivisionError).
Proof.
  split; [reflexivity|]. split; [reflexivity|].
  apply (@SelectorDIC_single_word_none dic_trainer lone_selector
           (start dic_trainer 0)); reflexivity.
Defined.

(** *** SelectorCV *)

Example cv_folds_cat :
  CV_folds (selector "CAT" 2 3)
  = Ok [([1; 2], [0]); ([0; 2], [1]); ([0; 1], [2])]%nat.
Proof. reflexivity. Qed.

(** DOG has two sequences, so two folds; 3 states score better. *)
Example cv_run :
  fst (@SelectorCV_select cv_trainer (selector "DOG" 2 3) (start cv_trainer 0))
  = Ok (Some {| t_states := 3; t_init := 5; t_rows := 4 |}).
Proof. vm_compute. reflexivity. Qed.

(** C9, run: BIRD has one sequence. *)
Lemma SelectorCV_single_sequence_none_witness :
  List.length (sequences (selector "BIRD" 2 10)) = 1%nat /\
  @SelectorCV_select cv_trainer (selector "BIRD" 2 10) (start cv_trainer 0)
  = (Ok None, start cv_trainer 0) /\
  forall n w0,
    @CV_average cv_trainer (selector "BIRD" 2 10) n w0 = (Raise ValueError, w0).
Proof.
  split; [reflexivity|].
  apply (@SelectorCV_single_sequence_none cv_trainer (selector "BIRD" 2 10)
           (start cv_trainer 0)); reflexivity.
Defined.

(** C4, the run that breaks it: CAT, candidates 2 and 3.  Both candidates
    complete their three folds, with averages -100 and -50, so 3 wins; the
    training on the whole data succeeds for 2 and raises for 3, after
    [best_cv] was moved to -50.  The selector returns the model with 2
    states. *)
Theorem SelectorCV_returns_stale_model :
  @CV_outcomes cv_trainer (selector "CAT" 2 3) (start cv_trainer 0)
  = [(2, Ok (F64.of_Z (-100)),
      Some (Ok {| t_states := 2; t_init := 3; t_rows := 6 |}));
     (3, Ok (F64.of_Z (-50)), Some (Raise ValueError))] /\
  F64.gtb (F64.of_Z (-50)) (F64.of_Z (-100)) = true /\
  fst (@SelectorCV_select cv_trainer (selector "CAT" 2 3) (start cv_trainer 0))
  = Ok (Some {| t_states := 2; t_init := 3; t_rows := 6 |}).
Proof. vm_compute. repeat split. Qed.

(** With a third candidate whose average, -70, lies between the two, the
    stale [best_cv = -50] also keeps the best candidate that can be trained
    on the whole data from being returned. *)
Example cv_stale_best_cv :
  let H := trainer (fun g n rows => negb ((n =? 3) && (rows =? 6)%nat))
             (by_states [(2, F64.of_Z (-100)); (3, F64.of_Z (-50));
                         (4, F64.of_Z (-70))]) in
  fst (@SelectorCV_select H (selector "CAT" 2 4) (start H 0))
  = Ok (Some {| t_states := 2; t_init := 3; t_rows := 6 |}).
Proof. vm_compute. reflexivity. Qed.

(** C8, the run that refutes it as stated: CAT, the one candidate 2.  The
    first fold trains and scores, the training of the second raises, and
    the third would train and score; the candidate's average is not
    computed and the selector returns [None]. *)
Lemma CV_fold_failure_discards_candidate :
  CV_folds (selector "CAT" 2 2)
  = Ok [([1; 2], [0]); ([0; 2], [1]); ([0; 1], [2])]%nat /\
  @CV_fold_outcomes fold_trainer (selector "CAT" 2 2) 2
    [([1; 2], [0]); ([0; 2], [1]); ([0; 1], [2])]%nat (PyInt 0)
    (start fold_trainer 0)
  = [Ok (PyFloat (F64.of_Z (-100))); Raise ValueError;
     Ok (PyFloat (F64.of_Z (-200)))] /\
  fst (@CV_average fold_trainer (selector "CAT" 2 2) 2 (start fold_trainer 0))
  = Raise ValueError /\
  fst (@SelectorCV_select fold_trainer (selector "CAT" 2 2)
         (start fold_trainer 0))
  = Ok None.
Proof. vm_compute. repeat split. Qed.

(** Where no training on the whole data raises, the winner is returned:
    DOG, candidates 2 and 3. *)
Lemma SelectorCV_select_winning_witness :
  (forall n avg e,
     ~ In (n, Ok avg, Some (Raise e))
          (@CV_outcomes cv_trainer (selector "DOG" 2 3) (start cv_trainer 0))) /\
  exists best w',
    @SelectorCV_select cv_trainer (selector "DOG" 2 3) (start cv_trainer 0)
    = (Ok best, w') /\
    (forall m, best = Some m ->
       exists n avg,
         In (n, Ok avg, Some (Ok m))
            (@CV_outcomes cv_trainer (selector "DOG" 2 3) (start cv_trainer 0)) /\
         forall n' avg' t,
           In (n', Ok avg', t)
              (@CV_outcomes cv_trainer (selector "DOG" 2 3)
                 (start cv_trainer 0)) ->
           F64.gtb avg' avg = false) /\
    ((exists n avg t,
        In (n, Ok avg, t)
           (@CV_outcomes cv_trainer (selector "DOG" 2 3) (start cv_trainer 0)) /\
        F64.gtb avg F64.neg_inf = true) -> best <> None).
Proof.
  assert (Hok : forall n avg e,
            ~ In (n, Ok avg, Some (Raise e))
                 (@CV_outcomes cv_trainer (selector "DOG" 2 3)
                    (start cv_trainer 0))).
  { intros n avg e. vm_compute. intros [Heq|[Heq|[]]]; discriminate. }
  split; [exact Hok|].
  exact (@SelectorCV_select_winning cv_trainer (selector "DOG" 2 3)
           (start cv_trainer 0) Hok).
Defined.

(** C8, run: the failed candidate 2 of the run above is skipped and the
    sweep goes on with candidate 3; and in the run of C4, where the
    training on the whole data raises at candidate 3, the model of
    candidate 2 is kept and the sweep goes on. *)
Lemma failures_caught_per_candidate_witness :
  (@CV_average fold_trainer (selector "CAT" 2 3) 2 (start fold_trainer 0)
   = (Raise ValueError,
      snd (@CV_average fold_trainer (selector "CAT" 2 3) 2
             (start fold_trainer 0))) /\
   @for_each fold_trainer _ _ [2; 3] (CV_step (selector "CAT" 2 3))
     (F64.neg_inf, None) (start fold_trainer 0)
   = @for_each fold_trainer _ _ [3] (CV_step (selector "CAT" 2 3))
       (F64.neg_inf, None)
       (snd (@CV_average fold_trainer (selector "CAT" 2 3) 2
               (start fold_trainer 0)))) /\
  (@CV_average cv_trainer (selector "CAT" 2 3) 3 (start cv_trainer 4)
   = (Ok (F64.of_Z (-50)),
      snd (@CV_average cv_trainer (selector "CAT" 2 3) 3 (start cv_trainer 4))) /\
   F64.gtb (F64.of_Z (-50)) (F64.of_Z (-100)) = true /\
   @GaussianHMM_fit cv_trainer None 3 (frames 6) [1; 2; 3]%nat
     (snd (@CV_average cv_trainer (selector "CAT" 2 3) 3 (start cv_trainer 4)))
   = (Raise ValueError,
      snd (@GaussianHMM_fit cv_trainer None 3 (frames 6) [1; 2; 3]%nat
             (snd (@CV_average cv_trainer (selector "CAT" 2 3) 3
                     (start cv_trainer 4))))) /\
   exists best_cv,
     @for_each cv_trainer _ _ [3] (CV_step (selector "CAT" 2 3))
       (F64.of_Z (-100), Some {| t_states := 2; t_init := 3; t_rows := 6 |})
       (start cv_trainer 4)
     = @for_each cv_trainer _ _ [] (CV_step (selector "CAT" 2 3))
         (best_cv, Some {| t_states := 2; t_init := 3; t_rows := 6 |})
         (snd (@GaussianHMM_fit cv_trainer None 3 (frames 6) [1; 2; 3]%nat
                 (snd (@CV_average cv_trainer (selector "CAT" 2 3) 3
                         (start cv_trainer 4)))))).
Proof.
  assert (Hc : @CV_average fold_trainer (selector "CAT" 2 3) 2
                 (start fold_trainer 0)
               = (Raise ValueError,
                  snd (@CV_average fold_trainer (selector "CAT" 2 3) 2
                         (start fold_trainer 0))))
    by (vm_compute; reflexivity).
  assert (Havg : @CV_average cv_trainer (selector "CAT" 2 3) 3 (start cv_trainer 4)
                 = (Ok (F64.of_Z (-50)),
                    snd (@CV_average cv_trainer (selector "CAT" 2 3) 3
                           (start cv_trainer 4))))
    by (apply run_eta; vm_compute; reflexivity).
  assert (Hgt : F64.gtb (F64.of_Z (-50)) (F64.of_Z (-100)) = true)
    by reflexivity.
  assert (Hfit : @GaussianHMM_fit cv_trainer None 3 (frames 6) [1; 2; 3]%nat
                   (snd (@CV_average cv_trainer (selector "CAT" 2 3) 3
                           (start cv_trainer 4)))
                 = (Raise ValueError,
                    snd (@GaussianHMM_fit cv_trainer None 3 (frames 6)
                           [1; 2; 3]%nat
                           (snd (@CV_average cv_trainer (selector "CAT" 2 3) 3
                                   (start cv_trainer 4))))))
    by (apply run_eta; vm_compute; reflexivity).
  split.
  - split; [exact Hc|].
    exact (proj1 (proj2 (proj2 (@failures_caught_per_candidate fold_trainer)))
             (selector "CAT" 2 3) 2 [3] (F64.neg_inf, None)
             (start fold_trainer 0) ValueError _ Hc).
  - split; [exact Havg|]. split; [exact Hgt|]. split; [exact Hfit|].
    exact (proj1 (proj2 (proj2 (proj2 (proj2
             (@failures_caught_per_candidate cv_trainer)))))
             (selector "CAT" 2 3) 3 []
             (F64.of_Z (-100),
              Some {| t_states := 2; t_init := 3; t_rows := 6 |})
             (start cv_trainer 4) _ _ ValueError _ Havg Hgt Hfit).
Defined.

(** *** Repeated selection *)

(** C7, the run that breaks it: [SelectorBIC.select] twice in a row on the
    same selector, [random_state = 14] both times.  The trainings draw from
    the global generator, which the first call leaves two draws further;
    the second call returns another model, with another state count. *)
Theorem SelectorBIC_select_not_repeatable :
  random_state (selector "DOG" 2 3) = 14 /\
  fst (@SelectorBIC_select seeded_trainer (selector "DOG" 2 3)
         (start seeded_trainer 0))
  = Ok (Some {| t_states := 2; t_init := 0; t_rows := 4 |}) /\
  rng (snd (@SelectorBIC_select seeded_trainer (selector "DOG" 2 3)
              (start seeded_trainer 0))) = 2 /\
  fst (@SelectorBIC_select seeded_trainer (selector "DOG" 2 3)
         (snd (@SelectorBIC_select seeded_trainer (selector "DOG" 2 3)
                 (start seeded_trainer 0))))
  = Ok (Some {| t_states := 3; t_init := 3; t_rows := 4 |}).
Proof. vm_compute. repeat split. Qed.

Example dic_not_repeatable :
  fst (@SelectorDIC_select seeded_trainer (selector "DOG" 2 3)
         (start seeded_trainer 0))
  <> fst (@SelectorDIC_select seeded_trainer (selector "DOG" 2 3)
            (start seeded_trainer 2)).
Proof. vm_compute. discriminate. Qed.

Example cv_not_repeatable :
  fst (@SelectorCV_select seeded_trainer (selector "DOG" 2 3)
         (start seeded_trainer 0))
  <> fst (@SelectorCV_select seeded_trainer (selector "DOG" 2 3)
            (start seeded_trainer 1)).
Proof. vm_compute. discriminate. Qed.

Example constant_repeatable :
  fst (@SelectorConstant_select seeded_trainer (selector "DOG" 2 3)
         (start seeded_trainer 0))
  = fst (@SelectorConstant_select seeded_trainer (selector "DOG" 2 3)
           (start seeded_trainer 2)).
Proof. reflexivity. Qed.

(** *** The recogniser *)

(** The specification's scenario: the table
    [{"CAT": -320.5, "DOG": -318.2, "BIRD": -325.0}] gives the guess DOG. *)
Example recognize_run :
  fst (@recognize rec_trainer models [item 1; item 2] (start rec_trainer 0))
  = Ok ([[("CAT"%string, F64.dyadic (-641) (-1));
          ("DOG"%string, F64.div (F64.of_Z (-3182)) (F64.of_Z 10));
          ("BIRD"%string, F64.of_Z (-325))];
         [("CAT"%string, F64.dyadic (-641) (-1));
          ("DOG"%string, F64.div (F64.of_Z (-3182)) (F64.of_Z 10));
          ("BIRD"%string, F64.of_Z (-325))]],
        ["DOG"%string; "DOG"%string]).
Proof. vm_compute. reflexivity. Qed.

(** A word whose selector returned [None] is left out of the tables. *)
Example recognize_missing_model :
  fst (@recognize rec_trainer
         [("CAT"%string, Some cat_model); ("DOG"%string, None)]
         [item 1] (start rec_trainer 0))
  = Ok ([[("CAT"%string, F64.dyadic (-641) (-1))]], ["CAT"%string]).
Proof. vm_compute. reflexivity. Qed.

(** Ties go to the first word in the dict's order. *)
Example recognize_tie :
  fst (@recognize rec_trainer
         [("CAT"%string, Some cat_model); ("COW"%string, Some cat_model)]
         [item 1] (start rec_trainer 0))
  = Ok ([[("CAT"%string, F64.dyadic (-641) (-1));
          ("COW"%string, F64.dyadic (-641) (-1))]], ["CAT"%string]).
Proof. vm_compute. reflexivity. Qed.

(** The theorem on the two items every word scores. *)
Lemma recognize_aligned_argmax_witness :
  (forall it, In it [item 1; item 2] ->
     exists word logL, @scores_item rec_trainer models it word logL) /\
  exists probabilities guesses w',
    @recognize rec_trainer models [item 1; item 2] (start rec_trainer 0)
    = (Ok (probabilities, guesses), w') /\
    List.length probabilities = 2%nat /\
    List.length guesses = 2%nat /\
    forall i it, nth_error [item 1; item 2] i = Some it ->
      exists p g,
        nth_error probabilities i = Some p /\
        nth_error guesses i = Some g /\
        @is_table rec_trainer models it p /\
        is_argmax p g /\
        (no_nan p -> is_greatest p g).
Proof.
  assert (Hall : forall it, In it [item 1; item 2] ->
            exists word logL, @scores_item rec_trainer models it word logL).
  { intros it [<-|[<-|[]]];
      exists "DOG"%string, (F64.div (F64.of_Z (-3182)) (F64.of_Z 10)), dog_model;
      split; reflexivity. }
  split; [exact Hall|].
  exact (@recognize_aligned_argmax rec_trainer models [item 1; item 2]
           (start rec_trainer 0) Hall).
Defined.

(** C5, the run that breaks it: the first item is scored by every word,
    the second by none; [recognize] returns no table and no guess, for
    either item, where the claim has two lists of length 2 with the
    arg-max DOG at index 0. *)
Lemma recognize_returns_nothing :
  fst (@for_each rec_trainer _ _ (dict_keys models)
         (@recognize_word rec_trainer models (frames 1) [1%nat]) [] (start rec_trainer 0))
  = Ok [("CAT"%string, F64.dyadic (-641) (-1));
        ("DOG"%string, F64.div (F64.of_Z (-3182)) (F64.of_Z 10));
        ("BIRD"%string, F64.of_Z (-325))] /\
  fst (@recognize rec_trainer models [item 1; item 3] (start rec_trainer 0))
  = Raise ValueError.
Proof. vm_compute. split; reflexivity. Qed.

(** C1, the run that breaks it: every scoring attempt fails for test item
    2.  Its table is empty, and [recognize] raises the [ValueError] of
    [max] on an empty sequence instead of returning a guess list with a
    sentinel at index 2. *)
Theorem recognize_exhausted_item_raises :
  (forall word logL, ~ @scores_item rec_trainer models (item 3) word logL) /\
  fst (@for_each rec_trainer _ _ (range 0 (num_items [item 1; item 2; item 3]))
         (@recognize_item rec_trainer models [item 1; item 2; item 3]) []
         (start rec_trainer 0))
  = Ok [[("CAT"%string, F64.dyadic (-641) (-1));
         ("DOG"%string, F64.div (F64.of_Z (-3182)) (F64.of_Z 10));
         ("BIRD"%string, F64.of_Z (-325))];
        [("CAT"%string, F64.dyadic (-641) (-1));
         ("DOG"%string, F64.div (F64.of_Z (-3182)) (F64.of_Z 10));
         ("BIRD"%string, F64.of_Z (-325))];
        []] /\
  fst (@recognize rec_trainer models [item 1; item 2; item 3]
         (start rec_trainer 0))
  = Raise ValueError.
Proof.
  split; [|vm_compute; split; reflexivity].
  intros word logL (m & _ & Hs). discriminate.
Qed.

(** The same with no word model at all. *)
Example recognize_no_models :
  fst (@recognize rec_trainer [] [item 1] (start rec_trainer 0))
  = Raise ValueError.
Proof. reflexivity. Qed.

End Examples.

(** * Further properties of the code *)

(** ** Comparisons, continued *)

(** [g < b] and [b <= e] give [g < e]. *)
Lemma SFltb_lt_le (g b e : float) :
  SFltb g b = true -> SFltb e b = false -> e <> S754_nan -> SFltb g e = true.
Proof.
  unfold SFltb, SFcompare.
  destruct g as [sg|sg| |sg mg eg], b as [sb|sb| |sb mb eb],
           e as [se|se| |se me ee];
    try destruct sg; try destruct sb; try destruct se;
    try discriminate; try congruence; auto.
  all: destruct (Z.compare_spec eg eb), (Z.compare_spec ee eb),
         (Z.compare_spec eg ee); try discriminate; try lia; auto; subst.
  all: rewrite ?Pos.compare_cont_spec in *; simpl in *.
  all: destruct (Pos.compare_spec mg mb), (Pos.compare_spec me mb),
         (Pos.compare_spec mg me); simpl in *; try discriminate; try lia; auto.
Qed.

(** [e <= b] and [b < g] give [e < g]. *)
Lemma SFltb_le_lt (b g e : float) :
  SFltb b g = true -> SFltb b e = false -> e <> S754_nan -> SFltb e g = true.
Proof.
  unfold SFltb, SFcompare.
  destruct g as [sg|sg| |sg mg eg], b as [sb|sb| |sb mb eb],
           e as [se|se| |se me ee];
    try destruct sg; try destruct sb; try destruct se;
    try discriminate; try congruence; auto.
  all: destruct (Z.compare_spec eb eg), (Z.compare_spec eb ee),
         (Z.compare_spec ee eg); try discriminate; try lia; auto; subst.
  all: rewrite ?Pos.compare_cont_spec in *; simpl in *.
  all: destruct (Pos.compare_spec mb mg), (Pos.compare_spec mb me),
         (Pos.compare_spec me mg); simpl in *; try discriminate; try lia; auto.
Qed.

(** A comparison under which a value that does not beat [b] is beaten by
    whatever beats [b], NaN apart. *)
Definition weak_order (better : float -> float -> bool) : Prop :=
  forall g b e,
    better g b = true -> better e b = false -> e <> S754_nan ->
    better g e = true.

Lemma ltb_weak_order : weak_order F64.ltb.
Proof. exact SFltb_lt_le. Qed.

Lemma gtb_weak_order : weak_order F64.gtb.
Proof. intros g b e. unfold F64.gtb. apply SFltb_le_lt. Qed.

(** ** What a run does to the world *)

Section Frames.

Context {H : Hmmlearn}.

Variable R : world -> world -> Prop.
Hypothesis R_refl : forall w, R w w.
Hypothesis R_trans : forall w1 w2 w3, R w1 w2 -> R w2 w3 -> R w1 w3.

Lemma bind_rel {A B} (c : py A) (k : A -> py B) (w : world) :
  R w (snd (c w)) ->
  (forall a w1, R w1 (snd (k a w1))) ->
  R w (snd (bind c k w)).
Proof.
  intros Hc Hk. unfold bind. destruct (c w) as [[a|e] w1]; simpl in *.
  - eapply R_trans; [exact Hc | apply Hk].
  - exact Hc.
Qed.

Lemma try_except_rel {A} (c h : py A) (w : world) :
  R w (snd (c w)) ->
  (forall w1, R w1 (snd (h w1))) ->
  R w (snd (try_except c h w)).
Proof.
  intros Hc Hh. unfold try_except. destruct (c w) as [[a|e] w1]; simpl in *.
  - exact Hc.
  - eapply R_trans; [exact Hc | apply Hh].
Qed.

Lemma for_each_rel {A S} (body : A -> S -> py S) (xs : list A) :
  (forall x st w, R w (snd (body x st w))) ->
  forall st w, R w (snd (for_each xs body st w)).
Proof.
  intros Hbody. induction xs as [|x xs IH]; intros st w; simpl.
  - apply R_refl.
  - apply bind_rel; [apply Hbody | intros; apply IH].
Qed.

End Frames.

Section CallLog.

Context {H : Hmmlearn}.

Lemma extends_refl (P : call -> Prop) (w : world) : extends P w w.
Proof. exists []. rewrite app_nil_r. split; [reflexivity | constructor]. Qed.

Lemma extends_trans (P : call -> Prop) (w1 w2 w3 : world) :
  extends P w1 w2 -> extends P w2 w3 -> extends P w1 w3.
Proof.
  intros (n1 & H1 & F1) (n2 & H2 & F2). exists (n1 ++ n2).
  rewrite H2, H1, app_assoc. split; [reflexivity | apply Forall_app; auto].
Qed.

Lemma extends_one (P : call -> Prop) (w : world) (g : RNG) (c : call) :
  P c -> extends P w {| rng := g; calls := calls w ++ [c] |}.
Proof. intros Hc. exists [c]. split; [reflexivity | repeat constructor; exact Hc]. Qed.

(** Scoring leaves the generator alone and logs one score call. *)
Definition scores_only (w w' : world) : Prop :=
  rng w' = rng w /\ extends is_score w w'.

Lemma scores_only_refl (w : world) : scores_only w w.
Proof. split; [reflexivity | apply extends_refl]. Qed.

Lemma scores_only_trans (w1 w2 w3 : world) :
  scores_only w1 w2 -> scores_only w2 w3 -> scores_only w1 w3.
Proof.
  intros [Hr1 He1] [Hr2 He2]. split; [congruence | eapply extends_trans; eassumption].
Qed.

Lemma model_score_scores_only (m : Model) X0 l (w : world) :
  scores_only w (snd (model_score m X0 l w)).
Proof. split; [reflexivity | apply extends_one; exact I]. Qed.

Lemma recognize_word_scores_only models X0 l word logLs (w : world) :
  scores_only w (snd (recognize_word models X0 l word logLs w)).
Proof.
  unfold recognize_word.
  apply (try_except_rel scores_only scores_only_trans);
    [|intros; apply scores_only_refl].
  apply (bind_rel scores_only scores_only_trans); [apply scores_only_refl|].
  intros [m|] w1; simpl.
  - apply (bind_rel scores_only scores_only_trans);
      [apply model_score_scores_only | intros; apply scores_only_refl].
  - apply scores_only_refl.
Qed.

(** [recognize] trains nothing and draws nothing: it leaves numpy's global
    generator where it was, and every call it makes into hmmlearn is a
    [score]. *)
Theorem recognize_only_scores models (test_set : SinglesData) (w : world) :
  rng (snd (recognize models test_set w)) = rng w /\
  exists new,
    calls (snd (recognize models test_set w)) = calls w ++ new /\
    Forall is_score new.
Proof.
  change (scores_only w (snd (recognize models test_set w))).
  unfold recognize.
  apply (bind_rel scores_only scores_only_trans).
  - apply (for_each_rel scores_only scores_only_refl scores_only_trans).
    intros i probs w0. unfold recognize_item.
    apply (bind_rel scores_only scores_only_trans); [apply scores_only_refl|].
    intros [X0 l] w1.
    apply (bind_rel scores_only scores_only_trans);
      [|intros; apply scores_only_refl].
    apply (for_each_rel scores_only scores_only_refl scores_only_trans).
    intros; apply recognize_word_scores_only.
  - intros probs w1.
    apply (bind_rel scores_only scores_only_trans);
      intros; apply scores_only_refl.
Qed.

End CallLog.

(** ** The recogniser, continued *)

Section RecognizeMore.

Context {H : Hmmlearn}.

(** What a returned result of [recognize] is made of. *)
Lemma recognize_inv models (test_set : SinglesData) (w w' : world)
    probabilities guesses :
  recognize models test_set w = (Ok (probabilities, guesses), w') ->
  for_each (map Z.of_nat (seq 0 (List.length test_set)))
           (recognize_item models test_set) [] w = (Ok probabilities, w') /\
  guess_all probabilities = Ok guesses.
Proof.
  unfold recognize, num_items, len, bind. rewrite range_0.
  destruct (for_each _ _ _ w) as [[probs|e] w1]; [|discriminate].
  unfold lift. destruct (guess_all probs) as [gs|e] eqn:Hg; [|discriminate].
  unfold ret. intros Heq. inversion Heq; subst. split; [reflexivity | exact Hg].
Qed.

Lemma guess_all_raise (probabilities : list (dict float)) (e : exn) :
  guess_all probabilities = Raise e -> e = ValueError.
Proof.
  induction probabilities as [|p ps IH]; simpl; [discriminate|].
  destruct p as [|kv p].
  - simpl. congruence.
  - destruct (py_max_argmax (kv :: p)) as (g & -> & _); [discriminate|].
    destruct (guess_all ps) as [gs|e0]; [discriminate|].
    intros Heq; injection Heq as <-. apply IH. reflexivity.
Qed.

Lemma guess_all_nonempty (probabilities : list (dict float)) guesses :
  guess_all probabilities = Ok guesses -> ~ In [] probabilities.
Proof.
  intros Hok Hin. rewrite (guess_all_exhausted _ Hin) in Hok. discriminate.
Qed.

(** [recognize] returns exactly when every test item is scored by at least
    one word model (so always on an empty test set, and never on a
    non-empty one with no usable model); when it does not return, what it
    raises is the [ValueError] of [max]. *)
Theorem recognize_returns_iff models (test_set : SinglesData) (w : world) :
  ((forall item, In item test_set ->
      exists word logL, scores_item models item word logL) <->
   exists result w', recognize models test_set w = (Ok result, w')) /\
  (forall e w', recognize models test_set w = (Raise e, w') -> e = ValueError).
Proof.
  destruct (recognize_items_run models test_set [] test_set [] w eq_refl)
    as (tables & w1 & Hrun & _ & Htables).
  simpl in Hrun. split; [split|].
  - intros Hsome.
    assert (Hne : Forall (fun p => p <> []) tables).
    { apply Forall_forall. intros p Hp Hnil. subst p.
      apply In_nth_error in Hp. destruct Hp as [i Hi].
      apply Forall2_flip in Htables.
      destruct (Forall2_nth_error _ _ _ Htables i [] Hi) as (item & Hitem & Htab).
      destruct (Hsome item (nth_error_In _ _ Hitem)) as (word & l & Hs).
      apply Htab in Hs. discriminate. }
    destruct (guess_all_ok tables Hne) as (guesses & Hguess & _).
    exists (tables, guesses), w1.
    unfold recognize, num_items, len, bind. rewrite range_0, Hrun.
    unfold lift. rewrite Hguess. reflexivity.
  - intros ([probs guesses] & w' & Hok) item Hin.
    destruct (recognize_inv _ _ _ _ _ _ Hok) as [Hrun' Hguess].
    rewrite Hrun in Hrun'. injection Hrun' as <- <-.
    apply In_nth_error in Hin. destruct Hin as [i Hi].
    destruct (Forall2_nth_error _ _ _ Htables i item Hi) as (p & Hp & Htab).
    destruct p as [|[k v] p].
    + exfalso. apply (guess_all_nonempty _ _ Hguess).
      eapply nth_error_In; eassumption.
    + exists k, v. apply Htab. simpl. rewrite String.eqb_refl. reflexivity.
  - intros e w'. unfold recognize, num_items, len, bind.
    rewrite range_0, Hrun. unfold lift.
    destruct (guess_all tables) as [gs|e0] eqn:Hg; [discriminate|].
    intros Heq; injection Heq as <- _. eapply guess_all_raise; eassumption.
Qed.

(** *** The tables, entry by entry *)

Lemma dict_get_app_fresh {V} (d1 d2 : dict V) (k : string) :
  ~ In k (dict_keys d1) -> dict_get (d1 ++ d2) k = dict_get d2 k.
Proof.
  induction d1 as [|[k0 v0] d1 IH]; simpl; [reflexivity|].
  intros Hn. destruct (String.eqb_spec k k0) as [->|_]; [tauto|].
  apply IH. tauto.
Qed.

Lemma dict_set_fresh {V} (d : dict V) (k : string) (v : V) :
  ~ In k (dict_keys d) -> dict_set d k v = d ++ [(k, v)].
Proof.
  induction d as [|[k0 v0] d IH]; simpl; [reflexivity|].
  intros Hn. destruct (String.eqb_spec k k0) as [->|_]; [tauto|].
  rewrite IH by tauto. reflexivity.
Qed.

Lemma recognize_words_exact (models : dict (option Model)) X0 l :
  NoDup (dict_keys models) ->
  forall done rest logLs w,
    models = done ++ rest ->
    (forall k, In k (dict_keys logLs) -> In k (dict_keys done)) ->
    exists w',
      for_each (dict_keys rest) (recognize_word models X0 l) logLs w
      = (Ok (logLs ++ scored_entries rest X0 l), w').
Proof.
  intros Hnd done rest; revert done.
  induction rest as [|[k om] rest IH]; intros done logLs w Hsplit Hkeys; simpl.
  - exists w. rewrite app_nil_r. reflexivity.
  - assert (Hfresh : ~ In k (dict_keys done)).
    { rewrite Hsplit in Hnd. unfold dict_keys in Hnd. rewrite map_app in Hnd.
      simpl in Hnd. apply NoDup_remove_2 in Hnd. intros Hin. apply Hnd.
      apply in_or_app. left; exact Hin. }
    assert (Hget : dict_get models k = Ok om).
    { rewrite Hsplit, dict_get_app_fresh by exact Hfresh. simpl.
      rewrite String.eqb_refl. reflexivity. }
    assert (Hsplit' : models = (done ++ [(k, om)]) ++ rest)
      by (rewrite <- app_assoc; exact Hsplit).
    assert (Hkeys' : forall k', In k' (dict_keys logLs) ->
                       In k' (dict_keys (done ++ [(k, om)]))).
    { intros k' Hk'. unfold dict_keys. rewrite map_app. apply in_or_app.
      left. apply Hkeys, Hk'. }
    unfold bind at 1. unfold recognize_word at 1, try_except, bind, lift.
    rewrite Hget. destruct om as [m|]; simpl.
    + unfold model_score. destruct (hmm_score m X0 l) as [logL|e]; simpl.
      * rewrite dict_set_fresh by (intros Hin; apply Hfresh, Hkeys, Hin).
        destruct (IH (done ++ [(k, Some m)]) (logLs ++ [(k, logL)])
                     {| rng := rng w; calls := calls w ++ [ScoreCall m X0 l] |}
                     Hsplit') as [w' Hrun].
        { intros k' Hk'. unfold dict_keys in *. rewrite map_app in *.
          apply in_app_or in Hk'. apply in_or_app.
          destruct Hk' as [Hk'|Hk']; [left; apply Hkeys, Hk' | right; exact Hk']. }
        exists w'. rewrite Hrun, <- app_assoc. reflexivity.
      * destruct (IH (done ++ [(k, Some m)]) logLs
                     {| rng := rng w; calls := calls w ++ [ScoreCall m X0 l] |}
                     Hsplit' Hkeys') as [w' Hrun].
        exists w'. exact Hrun.
    + unfold raise.
      destruct (IH (done ++ [(k, None)]) logLs w Hsplit' Hkeys') as [w' Hrun].
      exists w'. exact Hrun.
Qed.

Lemma recognize_items_exact models (test_set : SinglesData) :
  NoDup (dict_keys models) ->
  forall (done rest : SinglesData) acc w,
    test_set = done ++ rest ->
    exists w',
      for_each (map Z.of_nat (seq (List.length done) (List.length rest)))
               (recognize_item models test_set) acc w
      = (Ok (acc ++ map (fun item => scored_entries models (fst item) (snd item))
                        rest), w').
Proof.
  intros Hnd done rest; revert done; induction rest as [|[X0 l] rest IH];
    intros done acc w Hsplit; simpl.
  - exists w. rewrite app_nil_r. reflexivity.
  - unfold bind at 1. unfold recognize_item at 1.
    unfold bind, lift, get_item_Xlengths.
    rewrite Nat2Z.id, Hsplit, nth_error_app2, Nat.sub_diag by lia. simpl.
    destruct (recognize_words_exact models X0 l Hnd [] models [] w eq_refl)
      as [w1 Hrun]; [intros k []|].
    rewrite Hrun. unfold ret. simpl.
    destruct (IH (done ++ [(X0, l)])
                 (acc ++ [scored_entries models X0 l]) w1) as [w' Hrun'].
    { rewrite <- app_assoc. exact Hsplit. }
    rewrite length_app, Nat.add_1_r in Hrun'. rewrite <- Hsplit, Hrun'.
    exists w'. rewrite <- app_assoc. reflexivity.
Qed.

(** The tables [recognize] returns are, item by item, the scores of the
    words in the order of the [models] dict, the words whose scoring raised
    or whose model is [None] left out. *)
Theorem recognize_tables_in_order models (test_set : SinglesData) (w w' : world)
    probabilities guesses :
  NoDup (dict_keys models) ->
  recognize models test_set w = (Ok (probabilities, guesses), w') ->
  probabilities
  = map (fun item => scored_entries models (fst item) (snd item)) test_set.
Proof.
  intros Hnd Hok. destruct (recognize_inv _ _ _ _ _ _ Hok) as [Hrun _].
  destruct (recognize_items_exact models test_set Hnd [] test_set [] w eq_refl)
    as [w1 Hrun1].
  simpl in Hrun1. rewrite Hrun1 in Hrun. injection Hrun as <- _. reflexivity.
Qed.

End RecognizeMore.

(** *** Ties *)

Section Ties.

Context {H : Hmmlearn}.

Lemma max_loop_first (key : string -> res float) (xs : list string) :
  (forall x, In x xs -> exists k, key x = Ok k) ->
  forall best best_key g,
    max_loop key best best_key xs = Ok g ->
    (g = best /\
     forall x k, In x xs -> key x = Ok k -> F64.gtb k best_key = false) \/
    (exists before after kg,
       xs = before ++ g :: after /\ key g = Ok kg /\
       F64.gtb kg best_key = true /\
       (forall x k, In x before -> key x = Ok k -> k <> S754_nan ->
          F64.gtb kg k = true) /\
       (forall x k, In x after -> key x = Ok k -> F64.gtb k kg = false)).
Proof.
  destruct gtb_strict as [Hirr Htr]. pose proof gtb_weak_order as Hweak.
  induction xs as [|x xs IH]; intros Hkeys best bk g; simpl.
  - intros Heq; injection Heq as <-. left. split; [reflexivity|]. intros x k [].
  - destruct (Hkeys x (or_introl eq_refl)) as [k Hk]. rewrite Hk.
    assert (Hkeys' : forall y, In y xs -> exists k, key y = Ok k)
      by (intros y Hy; apply Hkeys; right; exact Hy).
    destruct (F64.gtb k bk) eqn:Hgt; intros Hrun;
      destruct (IH Hkeys' _ _ _ Hrun)
        as [[-> Hall]|(pre & post & kg & -> & Hg & Hbeat & Hpre & Hpost)].
    + right. exists [], xs, k. repeat split; auto; intros y ky [].
    + right. exists (x :: pre), post, kg. repeat split; auto.
      * exact (Htr _ _ _ Hbeat Hgt).
      * intros y ky [<-|Hy] Hky Hnan; [|eauto].
        replace ky with k by congruence. exact Hbeat.
    + left. split; [reflexivity|].
      intros y ky [<-|Hy] Hky; [|eauto].
      replace ky with k by congruence. exact Hgt.
    + right. exists (x :: pre), post, kg. repeat split; auto.
      intros y ky [<-|Hy] Hky Hnan; [|eauto].
      replace ky with k in * by congruence. exact (Hweak _ _ _ Hbeat Hgt Hnan).
Qed.

Lemma py_max_first (p : dict float) (g : string) :
  no_nan p ->
  py_max (dict_keys p) (fun x => dict_get p x) = Ok g ->
  is_first_argmax p g.
Proof.
  intros Hnan.
  assert (Hkeys : forall x, In x (dict_keys p) -> exists k, dict_get p x = Ok k)
    by (intros x Hx; apply dict_get_keys; exact Hx).
  destruct p as [|[k0 v0] p]; [discriminate|].
  unfold py_max. cbn [dict_keys map fst].
  destruct (Hkeys k0 (or_introl eq_refl)) as [b0 Hb0]. rewrite Hb0.
  intros Hrun.
  destruct (max_loop_first (fun x => dict_get ((k0, v0) :: p) x) (dict_keys p))
    with (best := k0) (best_key := b0) (g := g)
    as [[-> Hall]|(pre & post & kg & Hsplit & Hg & Hbeat & Hpre & Hpost)]; auto.
  { intros x Hx. apply Hkeys. right; exact Hx. }
  - exists [], (dict_keys p), b0. repeat split; auto; intros word l [].
  - exists (k0 :: pre), post, kg. split.
    { change (k0 :: dict_keys p = (k0 :: pre) ++ g :: post).
      rewrite Hsplit. reflexivity. }
    repeat split; auto.
    intros word l [<-|Hw] Hl; [|apply (Hpre word l Hw Hl), (Hnan word l Hl)].
    replace l with b0 by congruence. exact Hbeat.
Qed.

Lemma guess_all_first (probabilities : list (dict float)) :
  Forall no_nan probabilities ->
  forall guesses,
    guess_all probabilities = Ok guesses ->
    Forall2 is_first_argmax probabilities guesses.
Proof.
  induction 1 as [|p ps Hp _ IH]; intros guesses; simpl.
  - intros Heq; injection Heq as <-. constructor.
  - destruct (py_max _ _) as [g|e] eqn:Hmax; [|discriminate].
    destruct (guess_all ps) as [gs|e]; [|discriminate].
    intros Heq; injection Heq as <-.
    constructor; [apply py_max_first; assumption | apply IH; reflexivity].
Qed.

(** Among the words with the greatest score for an item, the guess is the
    first in the table's order: every word before it in the table scores
    strictly less, and none after it scores more.  (A NaN compares as
    neither, hence the proviso.) *)
Theorem recognize_guess_first models (test_set : SinglesData) (w w' : world)
    probabilities guesses :
  recognize models test_set w = (Ok (probabilities, guesses), w') ->
  Forall no_nan probabilities ->
  Forall2 is_first_argmax probabilities guesses.
Proof.
  intros Hok Hnan. destruct (recognize_inv _ _ _ _ _ _ Hok) as [_ Hguess].
  exact (guess_all_first _ Hnan _ Hguess).
Qed.

End Ties.

(** ** The sweeps, continued *)

Section SweepMore.

Context {H : Hmmlearn}.

Variable better : float -> float -> bool.
Hypothesis Hstrict : strict better.
Hypothesis Hweak : weak_order better.

Lemma sweep_best_first (out : list (Z * res (Model * float))) :
  forall bv bm v r,
    sweep_best better out (bv, bm) = (v, r) ->
    (r = bm /\ v = bv) \/
    (exists before n m after,
       out = before ++ (n, Ok (m, v)) :: after /\ r = Some m /\
       better v bv = true /\
       (forall n' m' v', In (n', Ok (m', v')) before -> v' <> S754_nan ->
          better v v' = true) /\
       (forall n' m' v', In (n', Ok (m', v')) after -> better v' v = false)).
Proof.
  destruct Hstrict as [Hirr Htr].
  induction out as [|[n [[m0 v0]|e]] out IH]; intros bv bm v r; simpl.
  - intros Heq; injection Heq as <- <-. left; auto.
  - destruct (better v0 bv) eqn:Hb; intros Hrun.
    + destruct (IH _ _ _ _ Hrun)
        as [[-> ->]|(pre & n' & m & post & -> & -> & Hbeat & Hpre & Hpost)].
      * right. exists [], n, m0, out.
        split; [reflexivity|]. split; [reflexivity|]. split; [exact Hb|].
        split; [intros n' m' v' []|].
        destruct (sweep_best_inv better Hstrict out _ _ _ _ Hrun)
          as (_ & Hall & _). exact Hall.
      * right. exists ((n, Ok (m0, v0)) :: pre), n', m, post.
        split; [reflexivity|]. split; [reflexivity|].
        split; [exact (Htr _ _ _ Hbeat Hb)|]. split; [|exact Hpost].
        intros n1 m1 v1 [Heq|Hin] Hnan; [|eauto].
        injection Heq as _ _ <-. exact Hbeat.
    + destruct (IH _ _ _ _ Hrun)
        as [[-> ->]|(pre & n' & m & post & -> & -> & Hbeat & Hpre & Hpost)].
      * left; auto.
      * right. exists ((n, Ok (m0, v0)) :: pre), n', m, post.
        split; [reflexivity|]. split; [reflexivity|].
        split; [exact Hbeat|]. split; [|exact Hpost].
        intros n1 m1 v1 [Heq|Hin] Hnan; [|eauto].
        injection Heq as _ _ <-. exact (Hweak _ _ _ Hbeat Hb Hnan).
  - intros Hrun.
    destruct (IH _ _ _ _ Hrun)
      as [[-> ->]|(pre & n' & m & post & -> & -> & Hbeat & Hpre & Hpost)].
    + left; auto.
    + right. exists ((n, Raise e) :: pre), n', m, post.
      split; [reflexivity|]. split; [reflexivity|].
      split; [exact Hbeat|]. split; [|exact Hpost].
      intros n1 m1 v1 [Heq|Hin] Hnan; [discriminate | eauto].
Qed.

(** A sweep from [(v0, None)] returns the first of its best candidates. *)
Lemma sweep_first_best (cand : Z -> py (Model * float)) (ns : list Z)
    (v0 : float) (w : world) (v : float) (m : Model) (w' : world) :
  for_each ns (sweep_step cand better) (v0, None) w = (Ok (v, Some m), w') ->
  first_best better (sweep_outcomes cand ns w) m.
Proof.
  rewrite sweep_run. intros Heq. injection Heq as Hbest _.
  destruct (sweep_best_first _ _ _ _ _ Hbest)
    as [[Hr _]|(pre & n & m' & post & Hout & Hr & _ & Hpre & Hpost)];
    [discriminate|].
  injection Hr as <-. exists pre, n, v, post. auto.
Qed.

End SweepMore.

Section SelectorsMore.

Context {H : Hmmlearn}.

Lemma select_result {A} (c : py (float * option A)) (w : world) r w' :
  bind c (fun st => ret (snd st)) w = (Ok r, w') ->
  exists v, c w = (Ok (v, r), w').
Proof.
  unfold bind, ret. destruct (c w) as [[[v r0]|e] w1]; [|discriminate].
  intros Heq; injection Heq as <- <-. eauto.
Qed.

(** Of candidates with the same BIC, [SelectorBIC.select] returns the one
    tried first, the one with fewer states: the BIC of the returned model
    is strictly below that of every candidate tried before it (NaN apart),
    and no candidate tried after it has a smaller one. *)
Theorem SelectorBIC_prefers_fewer_states (s : ModelSelector) (w w' : world)
    (m : Model) :
  SelectorBIC_select s w = (Ok (Some m), w') ->
  first_best F64.ltb (BIC_outcomes s w) m.
Proof.
  intros Hsel. destruct (select_result _ _ _ _ Hsel) as [v Hrun].
  rewrite BIC_step_sweep in Hrun.
  exact (sweep_first_best F64.ltb ltb_strict ltb_weak_order _ _ _ _ _ _ _ Hrun).
Qed.

(** Of candidates with the same DIC, [SelectorDIC.select] returns the one
    tried first: the DIC of the returned model is strictly above that of
    every candidate tried before it (NaN apart), and no candidate tried
    after it has a greater one. *)
Theorem SelectorDIC_prefers_fewer_states (s : ModelSelector) (w w' : world)
    (m : Model) :
  SelectorDIC_select s w = (Ok (Some m), w') ->
  first_best F64.gtb (DIC_outcomes s w) m.
Proof.
  intros Hsel. destruct (select_result _ _ _ _ Hsel) as [v Hrun].
  rewrite DIC_step_sweep in Hrun.
  exact (sweep_first_best F64.gtb gtb_strict gtb_weak_order _ _ _ _ _ _ _ Hrun).
Qed.

(** *** An empty range *)

Lemma candidates_empty (s : ModelSelector) :
  max_n_components s < min_n_components s -> candidates s = [].
Proof.
  intros Hlt. unfold candidates, range.
  replace (Z.to_nat _) with 0%nat by lia. reflexivity.
Qed.

(** With [max_n_components] below [min_n_components] the three sweeps try
    nothing: they return [None] and leave the world as it was.
    ([SelectorConstant] does not look at the range.) *)
Theorem select_empty_range (s : ModelSelector) (w : world) :
  max_n_components s < min_n_components s ->
  SelectorBIC_select s w = (Ok None, w) /\
  SelectorDIC_select s w = (Ok None, w) /\
  SelectorCV_select s w = (Ok None, w).
Proof.
  intros Hlt. unfold SelectorBIC_select, SelectorDIC_select, SelectorCV_select.
  rewrite (candidates_empty s Hlt). auto.
Qed.

(** *** No rows, no model *)

Lemma sweep_all_fail cand better (ns : list Z) (st : float * option Model) :
  (forall n w, exists e, fst (cand n w) = Raise e) ->
  forall w, exists w', for_each ns (sweep_step cand better) st w = (Ok st, w').
Proof.
  intros Hfail. induction ns as [|n ns IH]; intros w; simpl.
  - unfold ret; eauto.
  - unfold bind at 1. unfold sweep_step at 1, try_except, bind.
    destruct (Hfail n w) as [e He].
    destruct (cand n w) as [[mv|e0] w1]; simpl in He; [discriminate|].
    unfold ret. apply IH.
Qed.

(** A word whose feature matrix has no row gets no model from
    [SelectorBIC.select]: no candidate succeeds, and one that trains and
    scores ends on the [IndexError] of [self.X[0]], inside the handler. *)
Theorem SelectorBIC_no_rows (s : ModelSelector) (w : world) :
  X s = [] ->
  (exists w', SelectorBIC_select s w = (Ok None, w')) /\
  (forall n r, In (n, r) (BIC_outcomes s w) -> exists e, r = Raise e) /\
  (forall g n m logL,
     fst (hmm_fit g n (X s) (lengths s)) = Ok m ->
     hmm_score m (X s) (lengths s) = Ok logL ->
     BIC_of s g n = Raise IndexError).
Proof.
  intros HX.
  assert (Hfail : forall n w0, exists e, fst (BIC_candidate s n w0) = Raise e).
  { intros n w0. rewrite BIC_candidate_spec. unfold BIC_of, and_then.
    rewrite HX.
    destruct (fst (hmm_fit _ _ _ _)) as [m|e]; [|eauto].
    destruct (hmm_score _ _ _) as [l|e]; [|eauto]. simpl. eauto. }
  split; [|split].
  - unfold SelectorBIC_select, bind. rewrite BIC_step_sweep.
    destruct (sweep_all_fail (BIC_candidate s) F64.ltb (candidates s)
                (F64.inf, None) Hfail w) as [w' ->].
    unfold ret. eauto.
  - intros n r Hin.
    destruct (sweep_outcomes_In _ _ _ _ _ Hin) as [_ [w0 ->]]. apply Hfail.
  - intros g n m logL Hfit Hscore. unfold BIC_of, and_then.
    rewrite Hfit, Hscore, HX. reflexivity.
Qed.

(** *** A word of [self.words] that [self.hwords] does not have *)



(** *** The constructor *)

(** [ModelSelector.__init__] succeeds exactly when the word is a key of
    both dicts; it then keeps the two dicts and the word's entries in them,
    and otherwise raises [KeyError]. *)
Theorem ModelSelector_init_iff wseqs wXl word nc lo hi seed vb :
  ((In word (dict_keys wseqs) /\ In word (dict_keys wXl)) <->
   exists s, ModelSelector_init wseqs wXl word nc lo hi seed vb = Ok s) /\
  (forall s, ModelSelector_init wseqs wXl word nc lo hi seed vb = Ok s ->
     words s = wseqs /\ hwords s = wXl /\ this_word s = word /\
     dict_get wseqs word = Ok (sequences s) /\
     dict_get wXl word = Ok (X s, lengths s) /\
     n_constant s = nc /\ min_n_components s = lo /\
     max_n_components s = hi /\ random_state s = seed) /\
  (forall e, ModelSelector_init wseqs wXl word nc lo hi seed vb = Raise e ->
     e = KeyError).
Proof.
  assert (Hraise : forall V (d : dict V) k e, dict_get d k = Raise e -> e = KeyError).
  { intros V d k e. induction d as [|[k0 v0] d IH]; simpl; [congruence|].
    destruct (String.eqb k k0); [discriminate | exact IH]. }
  unfold ModelSelector_init. rewrite !dict_get_keys.
  destruct (dict_get wseqs word) as [seqs|e1] eqn:H1.
  - destruct (dict_get wXl word) as [[X0 l0]|e2] eqn:H2.
    + split; [split; eauto|]. split; [|discriminate].
      intros s Heq; injection Heq as <-. simpl. repeat split; reflexivity.
    + split; [|split; [discriminate|]].
      * split; [intros [_ [v Hv]]; discriminate | intros [s Hs]; discriminate].
      * intros e Heq; injection Heq as <-. eapply Hraise; eassumption.
  - split; [|split; [discriminate|]].
    + split; [intros [[v Hv] _]; discriminate | intros [s Hs]; discriminate].
    + intros e Heq; injection Heq as <-. eapply Hraise; eassumption.
Qed.

End SelectorsMore.

(** ** What the selectors train *)

Section TrainingLog.

Context {H : Hmmlearn}.

Lemma filter_is_fit_scores (new : list call) :
  Forall is_score new -> filter is_fit new = [].
Proof.
  induction 1 as [|c new Hc _ IH]; simpl; [reflexivity|].
  destruct c; simpl in *; [contradiction | exact IH].
Qed.

(** The calls a run adds, and the trainings among them. *)
Definition trains (w w' : world) (fits : list call) : Prop :=
  exists new, calls w' = calls w ++ new /\ filter is_fit new = fits.

Lemma trains_trans (w1 w2 w3 : world) (f1 f2 : list call) :
  trains w1 w2 f1 -> trains w2 w3 f2 -> trains w1 w3 (f1 ++ f2).
Proof.
  intros (n1 & H1 & F1) (n2 & H2 & F2). exists (n1 ++ n2).
  rewrite H2, H1, app_assoc, filter_app, F1, F2. auto.
Qed.

Lemma trains_scores (w w' : world) :
  extends is_score w w' -> trains w w' [].
Proof.
  intros (new & Hnew & Hall). exists new. auto using filter_is_fit_scores.
Qed.

Lemma DIC_other_scores (s : ModelSelector) (m : Model) (k : string)
    (acc : pynum) (w : world) :
  extends is_score w (snd (DIC_other s m k acc w)).
Proof.
  unfold DIC_other. destruct (String.eqb k (this_word s)); [apply extends_refl|].
  apply (bind_rel (extends is_score) (extends_trans is_score));
    [apply extends_refl|].
  intros [oX ol] w1.
  apply (bind_rel (extends is_score) (extends_trans is_score));
    [apply extends_one; exact I | intros; apply extends_refl].
Qed.

Lemma BIC_candidate_trains (s : ModelSelector) (n : Z) (w : world) :
  trains w (snd (BIC_candidate s n w)) [FitCall None n (X s) (lengths s)].
Proof.
  unfold BIC_candidate, bind, GaussianHMM_fit, model_score, lift, ret.
  destruct (hmm_fit (rng w) n (X s) (lengths s)) as [[m|e] g]; simpl.
  - destruct (hmm_score m (X s) (lengths s)) as [l|e]; simpl.
    + destruct (BIC_score s n l); simpl;
        exists [FitCall None n (X s) (lengths s); ScoreCall m (X s) (lengths s)];
        rewrite <- app_assoc; auto.
    + exists [FitCall None n (X s) (lengths s); ScoreCall m (X s) (lengths s)].
      rewrite <- app_assoc; auto.
  - exists [FitCall None n (X s) (lengths s)]. auto.
Qed.

Lemma DIC_candidate_trains (s : ModelSelector) (n : Z) (w : world) :
  trains w (snd (DIC_candidate s n w)) [FitCall None n (X s) (lengths s)].
Proof.
  unfold DIC_candidate, bind at 1, GaussianHMM_fit.
  destruct (hmm_fit (rng w) n (X s) (lengths s)) as [[m|e] g]; simpl.
  2: { exists [FitCall None n (X s) (lengths s)]. auto. }
  apply (trains_trans _ {| rng := g;
                           calls := calls w ++ [FitCall None n (X s) (lengths s)] |}
           _ [FitCall None n (X s) (lengths s)] []).
  { exists [FitCall None n (X s) (lengths s)]. auto. }
  apply trains_scores.
  apply (bind_rel (extends is_score) (extends_trans is_score));
    [apply extends_one; exact I|].
  intros l w1.
  apply (bind_rel (extends is_score) (extends_trans is_score)).
  - apply (for_each_rel (extends is_score) (extends_refl is_score)
             (extends_trans is_score)).
    intros; apply DIC_other_scores.
  - intros sum w2.
    apply (bind_rel (extends is_score) (extends_trans is_score));
      intros; apply extends_refl.
Qed.

Lemma sweep_trains cand better (f : Z -> call) (ns : list Z) :
  (forall n w, trains w (snd (cand n w)) [f n]) ->
  forall st w,
    trains w (snd (for_each ns (sweep_step cand better) st w)) (map f ns).
Proof.
  intros Hcand. induction ns as [|n ns IH]; intros st w; simpl.
  - exists []. rewrite app_nil_r. auto.
  - unfold bind at 1. unfold sweep_step at 1, try_except, bind.
    pose proof (Hcand n w) as Hn.
    destruct (cand n w) as [[[m v]|e] w1]; simpl in Hn.
    + destruct (better v (fst st)); unfold ret;
        exact (trains_trans _ _ _ [f n] _ Hn (IH _ w1)).
    + unfold ret. exact (trains_trans _ _ _ [f n] _ Hn (IH _ w1)).
Qed.

(** [SelectorBIC.select] and [SelectorDIC.select] train exactly one model
    per candidate state count, in increasing order, each on the word's
    whole data and with no [random_state]; everything else they call is
    [score]. *)
Theorem sweeps_train_once_per_candidate (s : ModelSelector) (w : world) :
  (exists new,
     calls (snd (SelectorBIC_select s w)) = calls w ++ new /\
     filter is_fit new
     = map (fun n => FitCall None n (X s) (lengths s)) (candidates s)) /\
  (exists new,
     calls (snd (SelectorDIC_select s w)) = calls w ++ new /\
     filter is_fit new
     = map (fun n => FitCall None n (X s) (lengths s)) (candidates s)).
Proof.
  split.
  - unfold SelectorBIC_select, bind. rewrite BIC_step_sweep.
    pose proof (sweep_trains (BIC_candidate s) F64.ltb _ (candidates s)
                  (BIC_candidate_trains s) (F64.inf, None) w) as Ht.
    destruct (for_each _ _ _ w) as [[st|e] w1]; exact Ht.
  - unfold SelectorDIC_select, bind. rewrite DIC_step_sweep.
    pose proof (sweep_trains (DIC_candidate s) F64.gtb _ (candidates s)
                  (DIC_candidate_trains s) (F64.neg_inf, None) w) as Ht.
    destruct (for_each _ _ _ w) as [[st|e] w1]; exact Ht.
Qed.

(** *** The seed *)

Lemma fit_unseeded (n : Z) X0 l (w : world) :
  extends unseeded w (snd (GaussianHMM_fit None n X0 l w)).
Proof.
  unfold GaussianHMM_fit. destruct (hmm_fit (rng w) n X0 l) as [r g]; simpl.
  apply extends_one. reflexivity.
Qed.

Lemma score_unseeded (m : Model) X0 l (w : world) :
  extends unseeded w (snd (model_score m X0 l w)).
Proof. apply extends_one. exact I. Qed.

Lemma CV_fold_unseeded (s : ModelSelector) (n : Z) fold acc (w : world) :
  extends unseeded w (snd (CV_fold s n fold acc w)).
Proof.
  unfold CV_fold. destruct fold as [train_index test_index].
  apply (bind_rel (extends unseeded) (extends_trans unseeded));
    [apply extends_refl|]. intros [Xtr ltr] w1.
  apply (bind_rel (extends unseeded) (extends_trans unseeded));
    [apply extends_refl|]. intros [Xte lte] w2.
  apply (bind_rel (extends unseeded) (extends_trans unseeded));
    [apply fit_unseeded|]. intros m w3.
  apply (bind_rel (extends unseeded) (extends_trans unseeded));
    [apply score_unseeded | intros; apply extends_refl].
Qed.

Lemma CV_step_unseeded (s : ModelSelector) (n : Z) st (w : world) :
  extends unseeded w (snd (CV_step s n st w)).
Proof.
  unfold CV_step.
  apply (try_except_rel (extends unseeded) (extends_trans unseeded));
    [|intros; apply extends_refl].
  apply (bind_rel (extends unseeded) (extends_trans unseeded)).
  - unfold CV_average.
    apply (bind_rel (extends unseeded) (extends_trans unseeded));
      [apply extends_refl|]. intros k w1.
    apply (bind_rel (extends unseeded) (extends_trans unseeded));
      [apply extends_refl|]. intros folds w2.
    apply (bind_rel (extends unseeded) (extends_trans unseeded));
      [|intros; apply extends_refl].
    apply (for_each_rel (extends unseeded) (extends_refl unseeded)
             (extends_trans unseeded)).
    intros; apply CV_fold_unseeded.
  - intros avg w1. destruct (F64.gtb avg (fst st)); [|apply extends_refl].
    apply (try_except_rel (extends unseeded) (extends_trans unseeded));
      [|intros; apply extends_refl].
    apply (bind_rel (extends unseeded) (extends_trans unseeded));
      [apply fit_unseeded | intros; apply extends_refl].
Qed.

(** No training that [SelectorCV.select] makes, on a fold or on the whole
    data, passes [random_state]: the configured seed is never used. *)
Theorem SelectorCV_never_seeds (s : ModelSelector) (w : world) :
  exists new,
    calls (snd (SelectorCV_select s w)) = calls w ++ new /\
    Forall unseeded new.
Proof.
  change (extends unseeded w (snd (SelectorCV_select s w))).
  unfold SelectorCV_select.
  apply (bind_rel (extends unseeded) (extends_trans unseeded));
    [|intros; apply extends_refl].
  apply (for_each_rel (extends unseeded) (extends_refl unseeded)
           (extends_trans unseeded)).
  intros; apply CV_step_unseeded.
Qed.

End TrainingLog.

(** ** Items, one at a time *)

Section Independence.

Context {H : Hmmlearn}.

Lemma guess_all_app (ps1 ps2 : list (dict float)) gs1 gs2 :
  guess_all ps1 = Ok gs1 -> guess_all ps2 = Ok gs2 ->
  guess_all (ps1 ++ ps2) = Ok (gs1 ++ gs2).
Proof.
  revert gs1. induction ps1 as [|p ps1 IH]; intros gs1; simpl.
  - intros Heq; injection Heq as <-. auto.
  - destruct (py_max _ _) as [g|e]; [|discriminate].
    destruct (guess_all ps1) as [gs|e]; [|discriminate].
    intros Heq Hgs2; injection Heq as <-.
    rewrite (IH gs eq_refl Hgs2). reflexivity.
Qed.

Lemma recognize_run_exact models (test_set : SinglesData) (w w' : world)
    probabilities guesses :
  NoDup (dict_keys models) ->
  recognize models test_set w = (Ok (probabilities, guesses), w') ->
  probabilities
  = map (fun item => scored_entries models (fst item) (snd item)) test_set /\
  guess_all probabilities = Ok guesses.
Proof.
  intros Hnd Hok. destruct (recognize_inv _ _ _ _ _ _ Hok) as [Hrun Hguess].
  destruct (recognize_items_exact models test_set Hnd [] test_set [] w eq_refl)
    as [w1 Hrun1].
  simpl in Hrun1. rewrite Hrun1 in Hrun. injection Hrun as <- _. auto.
Qed.

(** Each test item is recognised on its own: recognising two test sets one
    after the other, as one test set, gives the tables and the guesses of
    the first followed by those of the second. *)
Theorem recognize_app models (ts1 ts2 : SinglesData) (w w1 w1' w2 w2' : world)
    p1 g1 p2 g2 :
  NoDup (dict_keys models) ->
  recognize models ts1 w1 = (Ok (p1, g1), w1') ->
  recognize models ts2 w2 = (Ok (p2, g2), w2') ->
  exists w',
    recognize models (ts1 ++ ts2) w = (Ok (p1 ++ p2, g1 ++ g2), w').
Proof.
  intros Hnd H1 H2.
  destruct (recognize_run_exact _ _ _ _ _ _ Hnd H1) as [-> Hg1].
  destruct (recognize_run_exact _ _ _ _ _ _ Hnd H2) as [-> Hg2].
  destruct (recognize_items_exact models (ts1 ++ ts2) Hnd [] (ts1 ++ ts2) [] w
              eq_refl) as [w' Hrun].
  simpl in Hrun. exists w'.
  unfold recognize, num_items, len, bind. rewrite range_0, Hrun.
  unfold lift. rewrite map_app, (guess_all_app _ _ _ _ Hg1 Hg2). reflexivity.
Qed.

End Independence.

(** * More runs *)

Module MoreExamples.

Import Toy.

(** Four words and a missing model; EEL and ANT tie for the best score on
    both items. *)
Definition two_items : SinglesData := [item 1; item 2].

Definition tables : list (dict float) :=
  [[("CAT"%string, F64.of_Z (-2)); ("COW"%string, F64.of_Z (-2));
    ("EEL"%string, F64.of_Z (-1)); ("ANT"%string, F64.of_Z (-1))];
   [("CAT"%string, F64.of_Z (-3)); ("COW"%string, F64.of_Z (-3));
    ("EEL"%string, F64.of_Z (-2)); ("ANT"%string, F64.of_Z (-2))]].

Definition after_recognize : @world Plain.trainer :=
  snd (@recognize Plain.trainer Plain.twins two_items (start Plain.trainer 0)).

Lemma twins_run :
  @recognize Plain.trainer Plain.twins two_items (start Plain.trainer 0)
  = (Ok (tables, ["EEL"%string; "EEL"%string]), after_recognize).
Proof. apply run_eta. vm_compute. reflexivity. Qed.

Lemma twins_NoDup : NoDup (dict_keys Plain.twins).
Proof.
  unfold Plain.twins; simpl.
  repeat (constructor; [simpl; intros Hin;
                        repeat (destruct Hin as [Hin|Hin]; [discriminate|]);
                        exact Hin|]).
  constructor.
Qed.

Lemma tables_no_nan : Forall no_nan tables.
Proof.
  repeat constructor; intros word l; simpl;
    repeat (destruct (String.eqb word _);
            [intros Heq; injection Heq as <-; discriminate|]);
    discriminate.
Qed.

Lemma recognize_tables_in_order_witness :
  NoDup (dict_keys Plain.twins) /\
  @recognize Plain.trainer Plain.twins two_items (start Plain.trainer 0)
  = (Ok (tables, ["EEL"%string; "EEL"%string]), after_recognize) /\
  tables
  = map (fun it => @scored_entries Plain.trainer Plain.twins (fst it) (snd it))
        two_items.
Proof.
  split; [exact twins_NoDup|]. split; [exact twins_run|].
  exact (@recognize_tables_in_order Plain.trainer Plain.twins two_items
           (start Plain.trainer 0) after_recognize tables
           ["EEL"%string; "EEL"%string] twins_NoDup twins_run).
Defined.

Lemma recognize_guess_first_witness :
  @recognize Plain.trainer Plain.twins two_items (start Plain.trainer 0)
  = (Ok (tables, ["EEL"%string; "EEL"%string]), after_recognize) /\
  Forall no_nan tables /\
  Forall2 is_first_argmax tables ["EEL"%string; "EEL"%string].
Proof.
  split; [exact twins_run|]. split; [exact tables_no_nan|].
  exact (@recognize_guess_first Plain.trainer Plain.twins two_items
           (start Plain.trainer 0) after_recognize tables
           ["EEL"%string; "EEL"%string] twins_run tables_no_nan).
Defined.

Lemma recognize_app_witness :
  NoDup (dict_keys Plain.twins) /\
  @recognize Plain.trainer Plain.twins [item 1] (start Plain.trainer 0)
  = (Ok ([nth 0 tables []], ["EEL"%string]),
     snd (@recognize Plain.trainer Plain.twins [item 1] (start Plain.trainer 0))) /\
  @recognize Plain.trainer Plain.twins [item 2] (start Plain.trainer 5)
  = (Ok ([nth 1 tables []], ["EEL"%string]),
     snd (@recognize Plain.trainer Plain.twins [item 2] (start Plain.trainer 5))) /\
  exists w',
    @recognize Plain.trainer Plain.twins ([item 1] ++ [item 2])
      (start Plain.trainer 9)
    = (Ok ([nth 0 tables []] ++ [nth 1 tables []],
           ["EEL"%string] ++ ["EEL"%string]), w').
Proof.
  assert (H1 : @recognize Plain.trainer Plain.twins [item 1] (start Plain.trainer 0)
               = (Ok ([nth 0 tables []], ["EEL"%string]),
                  snd (@recognize Plain.trainer Plain.twins [item 1]
                         (start Plain.trainer 0))))
    by (apply run_eta; vm_compute; reflexivity).
  assert (H2 : @recognize Plain.trainer Plain.twins [item 2] (start Plain.trainer 5)
               = (Ok ([nth 1 tables []], ["EEL"%string]),
                  snd (@recognize Plain.trainer Plain.twins [item 2]
                         (start Plain.trainer 5))))
    by (apply run_eta; vm_compute; reflexivity).
  split; [exact twins_NoDup|]. split; [exact H1|]. split; [exact H2|].
  exact (@recognize_app Plain.trainer Plain.twins [item 1] [item 2]
           (start Plain.trainer 9) _ _ _ _ _ _ _ _ twins_NoDup H1 H2).
Defined.

(** With one row the criteria are 100, 100 and 120: the model with 2
    states is returned, not the one with 3. *)
Lemma SelectorBIC_prefers_fewer_states_witness :
  @SelectorBIC_select Plain.tie_trainer Plain.one_row_selector
    (start Plain.tie_trainer 0)
  = (Ok (Some {| t_states := 2; t_init := 0; t_rows := 1 |}),
     snd (@SelectorBIC_select Plain.tie_trainer Plain.one_row_selector
            (start Plain.tie_trainer 0))) /\
  @BIC_outcomes Plain.tie_trainer Plain.one_row_selector
    (start Plain.tie_trainer 0)
  = [(2, Ok ({| t_states := 2; t_init := 0; t_rows := 1 |}, F64.of_Z 100));
     (3, Ok ({| t_states := 3; t_init := 1; t_rows := 1 |}, F64.of_Z 100));
     (4, Ok ({| t_states := 4; t_init := 2; t_rows := 1 |}, F64.of_Z 120))] /\
  @first_best Plain.tie_trainer F64.ltb
    (@BIC_outcomes Plain.tie_trainer Plain.one_row_selector
       (start Plain.tie_trainer 0))
    {| t_states := 2; t_init := 0; t_rows := 1 |}.
Proof.
  assert (Hsel : @SelectorBIC_select Plain.tie_trainer Plain.one_row_selector
                   (start Plain.tie_trainer 0)
                 = (Ok (Some {| t_states := 2; t_init := 0; t_rows := 1 |}),
                    snd (@SelectorBIC_select Plain.tie_trainer
                           Plain.one_row_selector (start Plain.tie_trainer 0))))
    by (apply run_eta; vm_compute; reflexivity).
  split; [exact Hsel|]. split; [vm_compute; reflexivity|].
  exact (@SelectorBIC_prefers_fewer_states Plain.tie_trainer
           Plain.one_row_selector (start Plain.tie_trainer 0) _ _ Hsel).
Defined.

(** CAT against DOG and BIRD with the plain trainer: the DIC is -1.5 for
    2, 3 and 4 states, and the model with 2 states is returned. *)
Lemma SelectorDIC_prefers_fewer_states_witness :
  @SelectorDIC_select Plain.trainer (selector "CAT" 2 4) (start Plain.trainer 0)
  = (Ok (Some 2),
     snd (@SelectorDIC_select Plain.trainer (selector "CAT" 2 4)
            (start Plain.trainer 0))) /\
  @DIC_outcomes Plain.trainer (selector "CAT" 2 4) (start Plain.trainer 0)
  = [(2, Ok (2, F64.dyadic (-3) (-1))); (3, Ok (3, F64.dyadic (-3) (-1)));
     (4, Ok (4, F64.dyadic (-3) (-1)))] /\
  @first_best Plain.trainer F64.gtb
    (@DIC_outcomes Plain.trainer (selector "CAT" 2 4) (start Plain.trainer 0)) 2.
Proof.
  assert (Hsel : @SelectorDIC_select Plain.trainer (selector "CAT" 2 4)
                   (start Plain.trainer 0)
                 = (Ok (Some 2),
                    snd (@SelectorDIC_select Plain.trainer (selector "CAT" 2 4)
                           (start Plain.trainer 0))))
    by (apply run_eta; vm_compute; reflexivity).
  split; [exact Hsel|]. split; [vm_compute; reflexivity|].
  exact (@SelectorDIC_prefers_fewer_states Plain.trainer (selector "CAT" 2 4)
           (start Plain.trainer 0) _ _ Hsel).
Defined.

Lemma select_empty_range_witness :
  max_n_components (selector "CAT" 5 2) < min_n_components (selector "CAT" 5 2) /\
  @SelectorBIC_select Plain.trainer (selector "CAT" 5 2) (start Plain.trainer 0)
  = (Ok None, start Plain.trainer 0) /\
  @SelectorDIC_select Plain.trainer (selector "CAT" 5 2) (start Plain.trainer 0)
  = (Ok None, start Plain.trainer 0) /\
  @SelectorCV_select Plain.trainer (selector "CAT" 5 2) (start Plain.trainer 0)
  = (Ok None, start Plain.trainer 0).
Proof.
  assert (Hlt : max_n_components (selector "CAT" 5 2)
                < min_n_components (selector "CAT" 5 2)) by reflexivity.
  split; [exact Hlt|].
  exact (@select_empty_range Plain.trainer (selector "CAT" 5 2)
           (start Plain.trainer 0) Hlt).
Defined.

(** With a trainer that trains and scores on no rows, each of the three
    candidates ends on the [IndexError]. *)
Lemma SelectorBIC_no_rows_witness :
  X Plain.empty_selector = [] /\
  @BIC_outcomes bic_trainer Plain.empty_selector (start bic_trainer 0)
  = [(2, Raise IndexError); (3, Raise IndexError); (4, Raise IndexError)] /\
  (exists w',
     @SelectorBIC_select bic_trainer Plain.empty_selector (start bic_trainer 0)
     = (Ok None, w')) /\
  (forall n r,
     In (n, r) (@BIC_outcomes bic_trainer Plain.empty_selector
                  (start bic_trainer 0)) ->
     exists e, r = Raise e) /\
  (forall g n m logL,
     fst (@hmm_fit bic_trainer g n (X Plain.empty_selector)
            (lengths Plain.empty_selector)) = Ok m ->
     @hmm_score bic_trainer m (X Plain.empty_selector)
       (lengths Plain.empty_selector) = Ok logL ->
     @BIC_of bic_trainer Plain.empty_selector g n = Raise IndexError).
Proof.
  split; [reflexivity|]. split; [vm_compute; reflexivity|].
  exact (@SelectorBIC_no_rows bic_trainer Plain.empty_selector
           (start bic_trainer 0) eq_refl).
Defined.


(** Without the word FISH the same selector returns a model. *)
Example dic_without_fish :
  fst (@SelectorDIC_select Plain.trainer (selector "CAT" 2 4)
         (start Plain.trainer 0)) = Ok (Some 2).
Proof. vm_compute. reflexivity. Qed.

(** A NaN is above nothing and nothing is above it: when the first score
    of a table is a NaN, [max] keeps that word. *)
Example max_nan_first :
  py_max (dict_keys [("A"%string, F64.nan); ("B"%string, F64.of_Z 1);
                     ("C"%string, F64.of_Z 2)])
         (fun x => dict_get [("A"%string, F64.nan); ("B"%string, F64.of_Z 1);
                             ("C"%string, F64.of_Z 2)] x)
  = Ok "A"%string.
Proof. reflexivity. Qed.

Example recognize_empty_test_set :
  @recognize Plain.trainer Plain.twins [] (start Plain.trainer 0)
  = (Ok ([], []), start Plain.trainer 0).
Proof. reflexivity. Qed.

End MoreExamples.
